(** * LPS28 pressure sensor driver (lps28.py): shallow embedding

    The driver is a flat class of properties over I2C register
    descriptors.  The embedding follows the source top to bottom:

    - Python values, exceptions and an exception-and-state monad in
      which a raised exception keeps the state reached so far;
    - the transport (the I2C device borrowed by the driver) as a register
      file with a log of the completed write transactions and a script of
      transport faults;
    - the register descriptors the class attributes are bound to;
    - the module constants and the class [LPS28], method by method. *)

From Stdlib Require Import ZArith QArith String List Lia Bool.
From stdpp Require Import base gmap list.

Open Scope string_scope.
Open Scope list_scope.
Open Scope Z_scope.

(** ** Python exceptions and results *)

Inductive exn : Type :=
  | RuntimeError (msg : string)
  | ValueError (msg : string)
  | IndexError
  | ZeroDivisionError
  | OSError.

Inductive outcome (A : Type) : Type :=
  | Return (a : A)
  | Raise (e : exn).
Arguments Return {A} a.
Arguments Raise {A} e.

(** A computation over a mutable state [S].  An exception leaves the
    state as it was when the exception was raised: whatever was assigned
    or sent on the bus before stays. *)
Definition M (S A : Type) : Type := S -> outcome A * S.

Definition ret {S A} (a : A) : M S A := fun s => (Return a, s).
Definition raise {S A} (e : exn) : M S A := fun s => (Raise e, s).
Definition bind {S A B} (m : M S A) (k : A -> M S B) : M S B :=
  fun s => match m s with
           | (Return a, s') => k a s'
           | (Raise e, s') => (Raise e, s')
           end.
Definition get_state {S} : M S S := fun s => (Return s, s).
Definition put_state {S} (s : S) : M S unit := fun _ => (Return tt, s).
Definition lift_outcome {S A} (o : outcome A) : M S A := fun s => (o, s).

Notation "x <- m ;; k" := (bind m (fun x => k))
  (at level 100, m at next level, right associativity).
Notation "m ;;; k" := (bind m (fun _ => k))
  (at level 100, right associativity).

(** ** Python values

    The getters of the class return strings, floats and booleans, its
    enumerated setters take integers and its enable setters any value.
    [py_eq] is Python's [==] across these types:
    a string equals no number, [bool] is a subtype of [int], and a float
    equals an integer of the same numeric value.  A float stands for the
    rational it denotes; every quotient the driver computes is kept in
    lowest terms, so that equal results are equal terms. *)

Inductive pyobj : Type :=
  | PInt (z : Z)
  | PStr (s : string)
  | PFloat (q : Q)
  | PBool (b : bool).

Definition py_num (o : pyobj) : option Q :=
  match o with
  | PInt z => Some (inject_Z z)
  | PFloat q => Some q
  | PBool b => Some (inject_Z (Z.b2z b))
  | PStr _ => None
  end.

Definition py_eq (a b : pyobj) : bool :=
  match a, b with
  | PStr s, PStr t => String.eqb s t
  | _, _ => match py_num a, py_num b with
            | Some x, Some y => Qeq_bool x y
            | _, _ => false
            end
  end.

(** [value in tuple] on a tuple of integers. *)
Definition py_in (value : Z) (t : list Z) : bool :=
  existsb (Z.eqb value) t.

(** [value in tuple] on a tuple of any values, by [==]. *)
Definition py_in_objs (value : pyobj) (t : list pyobj) : bool :=
  existsb (py_eq value) t.

(** The truth value of [value], as [if value:] takes it. *)
Definition py_truthy (value : pyobj) : bool :=
  match value with
  | PInt z => negb (z =? 0)
  | PStr s => negb (String.eqb s "")
  | PFloat q => negb (Qeq_bool q 0)
  | PBool b => b
  end.

(** [t[i]]: a negative index counts from the end, an index out of range
    raises IndexError. *)
Definition py_index {A} (t : list A) (i : Z) : outcome A :=
  let n := Z.of_nat (length t) in
  let j := if i <? 0 then i + n else i in
  if (j <? 0) || (n <=? j) then Raise IndexError
  else match t !! Z.to_nat j with
       | Some a => Return a
       | None => Raise IndexError
       end.

(** [a / b], true division. *)
Definition py_truediv (a b : Q) : outcome Q :=
  if Qeq_bool b 0 then Raise ZeroDivisionError
  else Return (Qred (a / b)).

(** ** The transport

    Modelled from the spec: the transport handle (adafruit_bus_device's
    I2CDevice) is an external collaborator, "opaque capability to perform
    byte-level read/write at a 7-bit device address and 8-bit register
    offset".  The device behind it is a file of 8-bit registers; a
    transfer of several bytes walks consecutive register addresses.
    [writes] logs every completed write transaction, oldest first.
    [faults] scripts the transport: each transaction consumes one entry
    and fails with a transport error (OSError) when the entry is [true];
    an exhausted script means the bus answers. *)

Record I2CDevice : Type := mkI2CDevice {
  device_address : Z;
  regs : gmap Z Z;
  writes : list (Z * list Z);
  faults : list bool
}.

Definition reg_byte (r : gmap Z Z) (a : Z) : Z :=
  Z.land (default 0 (r !! a)) 255.

Fixpoint read_bytes (r : gmap Z Z) (a : Z) (n : nat) : list Z :=
  match n with
  | O => []
  | S n' => reg_byte r a :: read_bytes r (a + 1) n'
  end.

Fixpoint store_bytes (r : gmap Z Z) (a : Z) (bs : list Z) : gmap Z Z :=
  match bs with
  | [] => r
  | b :: bs' => store_bytes (<[a := Z.land b 255]> r) (a + 1) bs'
  end.

Definition with_faults (d : I2CDevice) (fs : list bool) : I2CDevice :=
  mkI2CDevice (device_address d) (regs d) (writes d) fs.

(** The transport once the next entry of the script is consumed. *)
Definition advance (d : I2CDevice) : I2CDevice :=
  with_faults d (tail (faults d)).

(** The device once the bytes [bs] have been written from register [a] on. *)
Definition wrote (a : Z) (bs : list Z) (d : I2CDevice) : I2CDevice :=
  mkI2CDevice (device_address d) (store_bytes (regs d) a bs)
              (writes d ++ [(a, bs)]) (faults d).

(** One bus transaction: consume the next entry of the fault script,
    then perform [op] unless the entry says the transfer fails. *)
Definition transaction {A} (op : I2CDevice -> A * I2CDevice) : M I2CDevice A :=
  fun d =>
    if hd false (faults d) then (Raise OSError, advance d)
    else let (a, d') := op (advance d) in (Return a, d').

(** [i2c.write_then_readinto(buf, buf, out_end=1, in_start=1)]: send the
    register address, read [n] bytes back. *)
Definition write_then_readinto (a : Z) (n : nat) : M I2CDevice (list Z) :=
  transaction (fun d => (read_bytes (regs d) a n, d)).

(** [i2c.write(buf)] with [buf = address :: bs]. *)
Definition i2c_write (a : Z) (bs : list Z) : M I2CDevice unit :=
  transaction (fun d => (tt, wrote a bs d)).

(** ** Register descriptors

    Modelled from the spec: the descriptor classes of adafruit_register
    (RWBits, ROBits, RWBit, UnaryStruct, ROUnaryStruct) are imported, not
    part of the repository.  The spec's register table fixes what they
    stand for: a field is (register address, lowest bit, width, access
    mode) and multi-byte fields are little-endian.  Reading a field is
    one write-then-read transaction.  Writing a bit field is that read
    followed by one write of the register with the field's bits
    replaced; writing a structure is one write of its packed bytes. *)

(** The bytes of a buffer as one integer, first byte least significant. *)
Definition le_int (bs : list Z) : Z :=
  fold_right (fun b acc => Z.lor (Z.shiftl acc 8) b) 0 bs.

(** The [n] low bytes of [reg], least significant first. *)
Fixpoint le_bytes (reg : Z) (n : nat) : list Z :=
  match n with
  | O => []
  | S n' => Z.land reg 255 :: le_bytes (Z.shiftr reg 8) n'
  end.

Record Bits : Type := mkBits {
  bits_address : Z;
  bits_width : nat;
  bit_mask : Z;
  lowest_bit : Z
}.

(** [RWBits(num_bits, register_address, lowest_bit, register_width)];
    [register_width] defaults to 1.  ROBits has the same reader. *)
Definition RWBits (num_bits register_address lowest : Z) (register_width : nat) : Bits :=
  mkBits register_address register_width
         (Z.shiftl (Z.shiftl 1 num_bits - 1) lowest) lowest.
Definition ROBits := RWBits.

Definition Bits_get (f : Bits) : M I2CDevice Z :=
  buf <- write_then_readinto (bits_address f) (bits_width f) ;;
  ret (Z.shiftr (Z.land (le_int buf) (bit_mask f)) (lowest_bit f)).

Definition Bits_set (f : Bits) (value : Z) : M I2CDevice unit :=
  let value := Z.shiftl value (lowest_bit f) in
  buf <- write_then_readinto (bits_address f) (bits_width f) ;;
  let reg := Z.lor (Z.land (le_int buf) (Z.lnot (bit_mask f))) value in
  i2c_write (bits_address f) (le_bytes reg (bits_width f)).

Record Bit : Type := mkBit {
  bit_address : Z;
  bit_width : nat;
  bit_byte : nat;
  bit_bitmask : Z
}.

(** [RWBit(register_address, bit)], register width 1. *)
Definition RWBit (register_address bit : Z) : Bit :=
  mkBit register_address 1 (Z.to_nat (bit / 8)) (Z.shiftl 1 (bit mod 8)).

Definition Bit_get (f : Bit) : M I2CDevice bool :=
  buf <- write_then_readinto (bit_address f) (bit_width f) ;;
  match buf !! bit_byte f with
  | Some b => ret (negb (Z.land b (bit_bitmask f) =? 0))
  | None => raise IndexError
  end.

Definition Bit_set (f : Bit) (value : bool) : M I2CDevice unit :=
  buf <- write_then_readinto (bit_address f) (bit_width f) ;;
  match buf !! bit_byte f with
  | Some b =>
      let b' := if value then Z.lor b (bit_bitmask f)
                else Z.land b (Z.lnot (bit_bitmask f)) in
      i2c_write (bit_address f) (<[bit_byte f := b']> buf)
  | None => raise IndexError
  end.

(** The three struct formats the class uses: "B", "<h" and "<H". *)
Inductive struct_format : Type := fmt_B | fmt_h | fmt_H.

Definition calcsize (f : struct_format) : nat :=
  match f with fmt_B => 1 | fmt_h => 2 | fmt_H => 2 end%nat.

Definition unpack (f : struct_format) (buf : list Z) : Z :=
  match f with
  | fmt_B | fmt_H => le_int buf
  | fmt_h => let u := le_int buf in if 32768 <=? u then u - 65536 else u
  end.

(** Modelled from the spec: packing a number the format cannot hold.
    The spec (4.6) has the driver do "no explicit bit-width clamping";
    "out-of-range values silently truncate/wrap".  A fractional value is
    cut towards zero, then the low bytes are kept. *)
Definition pack (f : struct_format) (value : Q) : list Z :=
  le_bytes (Z.quot (Qnum value) (Zpos (Qden value))) (calcsize f).

Record Struct : Type := mkStruct {
  struct_address : Z;
  format : struct_format
}.
Definition UnaryStruct := mkStruct.
Definition ROUnaryStruct := mkStruct.

Definition Struct_get (f : Struct) : M I2CDevice Z :=
  buf <- write_then_readinto (struct_address f) (calcsize (format f)) ;;
  ret (unpack (format f) buf).

Definition Struct_set (f : Struct) (value : Q) : M I2CDevice unit :=
  i2c_write (struct_address f) (pack (format f) value).

(** ** Module constants *)

Definition _REG_INTERRUPT_CFG : Z := 0x0B.
Definition _REG_THS_P_L : Z := 0x0C.
Definition _REG_THS_P_H : Z := 0x0D.
Definition _REG_WHOAMI : Z := 0x0F.
Definition _REG_CTRL_REG1 : Z := 0x10.
Definition _REG_CTRL_REG2 : Z := 0x11.
Definition _REG_INT_SOURCE : Z := 0x24.
Definition _REG_PRESS_OUT_XL : Z := 0x28.
Definition _REG_PRESS_OUT_L : Z := 0x29.
Definition _REG_PRESS_OUT_H : Z := 0x2A.
Definition _REG_TEMP_OUT_L : Z := 0x2B.
Definition _REG_TEMP_OUT_H : Z := 0x2C.

(* Data rate *)
Definition ONE_SHOT : Z := 0.
Definition RATE_1_HZ : Z := 1.
Definition RATE_4_HZ : Z := 2.
Definition RATE_10_HZ : Z := 3.
Definition RATE_25_HZ : Z := 4.
Definition RATE_50_HZ : Z := 5.
Definition RATE_75_HZ : Z := 6.
Definition RATE_100_HZ : Z := 7.
Definition RATE_200_HZ : Z := 8.
Definition data_rate_values : list Z :=
  [ONE_SHOT; RATE_1_HZ; RATE_4_HZ; RATE_10_HZ; RATE_25_HZ; RATE_50_HZ;
   RATE_75_HZ; RATE_100_HZ; RATE_200_HZ].

(* Resolution: RES_512 is 0b111, the pattern 0b110 is skipped. *)
Definition RES_4 : Z := 0.
Definition RES_8 : Z := 1.
Definition RES_16 : Z := 2.
Definition RES_32 : Z := 3.
Definition RES_64 : Z := 4.
Definition RES_128 : Z := 5.
Definition RES_512 : Z := 7.
Definition resolution_values : list Z :=
  [RES_4; RES_8; RES_16; RES_32; RES_64; RES_128; RES_512].

Definition FULL_SCALE : Z := 1.
Definition NORMAL : Z := 0.
Definition full_scale_values : list Z := [NORMAL; FULL_SCALE].

(** ** class LPS28 *)

Definition _reg_device_id : Struct := ROUnaryStruct _REG_WHOAMI fmt_B.
Definition _reg_raw_temperature : Struct := ROUnaryStruct _REG_TEMP_OUT_L fmt_h.
Definition _reg_raw_pressure : Bits := ROBits 24 _REG_PRESS_OUT_XL 0 3.
Definition _reg_pressure_threshold : Struct := UnaryStruct _REG_THS_P_L fmt_H.
Definition _reg_pressure_low : Bit := RWBit _REG_INT_SOURCE 1.
Definition _reg_pressure_high : Bit := RWBit _REG_INT_SOURCE 0.
Definition _reg_interrupt_low : Bit := RWBit _REG_INTERRUPT_CFG 1.
Definition _reg_interrupt_high : Bit := RWBit _REG_INTERRUPT_CFG 0.
Definition _reg_resolution : Bits := RWBits 3 _REG_CTRL_REG1 0 1.
Definition _reg_data_rate : Bits := RWBits 4 _REG_CTRL_REG1 3 1.
Definition _reg_full_scale : Bit := RWBit _REG_CTRL_REG2 6.

(** The instance: the borrowed transport and the cached pressure scale. *)
Record LPS28 : Type := mkLPS28 {
  i2c_device : I2CDevice;
  _pressure_scale : Z
}.

(** A descriptor access through [self]. *)
Definition on_bus {A} (m : M I2CDevice A) : M LPS28 A :=
  fun self => let (o, d) := m (i2c_device self) in
              (o, mkLPS28 d (_pressure_scale self)).

Definition set_pressure_scale (scale : Z) : M LPS28 unit :=
  fun self => (Return tt, mkLPS28 (i2c_device self) scale).

(** [__init__], run on the transport [I2CDevice(i2c_bus, address)] it
    wraps first: the identity check, the data-rate write, the scale.  The
    instance exists once the last assignment is done; the transport keeps
    what was sent whether or not construction succeeds. *)
Definition __init__ (i2c : I2CDevice) : outcome LPS28 * I2CDevice :=
  let body : M I2CDevice Z :=
    id <- Struct_get _reg_device_id ;;
    if negb (id =? 0xB4) then raise (RuntimeError "Failed to find LPS28")
    else
      Bits_set _reg_data_rate RATE_10_HZ ;;;
      ret 4096 in
  match body i2c with
  | (Return scale, d) => (Return (mkLPS28 d scale), d)
  | (Raise e, d) => (Raise e, d)
  end.

Definition data_rate : M LPS28 string :=
  let values := ["ONE_SHOT"; "RATE_1_HZ"; "RATE_4_HZ"; "RATE_10_HZ";
                 "RATE_25_HZ"; "RATE_50_HZ"; "RATE_75_HZ"; "RATE_100_HZ";
                 "RATE_200_HZ"] in
  i <- on_bus (Bits_get _reg_data_rate) ;;
  lift_outcome (py_index values i).

Definition set_data_rate (value : Z) : M LPS28 unit :=
  if negb (py_in value data_rate_values)
  then raise (ValueError "Value must be a valid data_rate setting")
  else on_bus (Bits_set _reg_data_rate value).

Definition resolution : M LPS28 string :=
  let values := ["RES_4"; "RES_8"; "RES_16"; "RES_32"; "RES_64"; "RES_128";
                 "RES_512"] in
  i <- on_bus (Bits_get _reg_resolution) ;;
  lift_outcome (py_index values i).

Definition set_resolution (value : Z) : M LPS28 unit :=
  if negb (py_in value resolution_values)
  then raise (ValueError "Value must be a valid resolution setting")
  else on_bus (Bits_set _reg_resolution value).

Definition full_scale : M LPS28 string :=
  let values := ["NORMAL"; "FULL_SCALE"] in
  b <- on_bus (Bit_get _reg_full_scale) ;;
  lift_outcome (py_index values (Z.b2z b)).

Definition set_full_scale (value : Z) : M LPS28 unit :=
  if negb (py_in value full_scale_values)
  then raise (ValueError "Value must be a valid scale setting")
  else
    let options := [4096; 2048] in
    scale <- lift_outcome (py_index options value) ;;
    set_pressure_scale scale ;;;
    on_bus (Bit_set _reg_full_scale (negb (value =? 0))).

Definition _twos_comp (val bits : Z) : Z :=
  if negb (Z.land val (Z.shiftl 1 (bits - 1)) =? 0)
  then val - Z.shiftl 1 bits
  else val.

Definition pressure : M LPS28 Q :=
  raw <- on_bus (Bits_get _reg_raw_pressure) ;;
  self <- get_state ;;
  lift_outcome (py_truediv (inject_Z (_twos_comp raw 24))
                           (inject_Z (_pressure_scale self))).

Definition temperature : M LPS28 Q :=
  raw <- on_bus (Struct_get _reg_raw_temperature) ;;
  lift_outcome (py_truediv (inject_Z raw) 100).

Definition high_threshold_enabled : M LPS28 bool :=
  on_bus (Bit_get _reg_interrupt_high).

(** The enable setters take any value: one that equals neither True
    nor False is refused, the others are written by their truth value. *)
Definition set_high_threshold_enabled (value : pyobj) : M LPS28 unit :=
  if negb (py_in_objs value [PBool true; PBool false])
  then raise (ValueError "value must be a valid setting")
  else on_bus (Bit_set _reg_interrupt_high (py_truthy value)).

Definition low_threshold_enabled : M LPS28 bool :=
  on_bus (Bit_get _reg_interrupt_low).

Definition set_low_threshold_enabled (value : pyobj) : M LPS28 unit :=
  if negb (py_in_objs value [PBool true; PBool false])
  then raise (ValueError "value must be a valid setting")
  else on_bus (Bit_set _reg_interrupt_low (py_truthy value)).

Definition high_threshold_exceeded : M LPS28 bool :=
  on_bus (Bit_get _reg_pressure_high).

Definition low_threshold_exceeded : M LPS28 bool :=
  on_bus (Bit_get _reg_pressure_low).

Definition pressure_threshold : M LPS28 Q :=
  let options := [16; 8] in
  raw <- on_bus (Struct_get _reg_pressure_threshold) ;;
  b <- on_bus (Bit_get _reg_full_scale) ;;
  divisor <- lift_outcome (py_index options (Z.b2z b)) ;;
  lift_outcome (py_truediv (inject_Z raw) (inject_Z divisor)).

Definition set_pressure_threshold (value : Q) : M LPS28 unit :=
  let options := [16; 8] in
  b <- on_bus (Bit_get _reg_full_scale) ;;
  factor <- lift_outcome (py_index options (Z.b2z b)) ;;
  on_bus (Struct_set _reg_pressure_threshold (Qred (value * inject_Z factor))).

(** ** Vocabulary of the properties *)

(** A transport that answers every transaction. *)
Definition reliable (d : I2CDevice) : Prop := faults d = [].

(** The FS_MODE bit, bit 6 of CTRL_REG2, as the device holds it. *)
Definition fs_mode (d : I2CDevice) : bool :=
  Z.testbit (reg_byte (regs d) _REG_CTRL_REG2) 6.

(** The pressure-scale invariant: the cached scale is 4096 exactly when
    the full-scale bit is 0, and 2048 exactly when it is 1. *)
Definition scale_invariant (self : LPS28) : Prop :=
  (_pressure_scale self = 4096 <-> fs_mode (i2c_device self) = false) /\
  (_pressure_scale self = 2048 <-> fs_mode (i2c_device self) = true).

(** The ODR and AVG fields of a CTRL_REG1 byte. *)
Definition odr_field (b : Z) : Z := Z.land (Z.shiftr b 3) 15.
Definition avg_field (b : Z) : Z := Z.land b 7.

(** The 24-bit PRESS_OUT and the 16-bit TEMP_OUT as the device holds
    them, least significant register first. *)
Definition press_out (d : I2CDevice) : Z :=
  reg_byte (regs d) _REG_PRESS_OUT_XL
  + 256 * (reg_byte (regs d) _REG_PRESS_OUT_L
           + 256 * reg_byte (regs d) _REG_PRESS_OUT_H).

Definition temp_out (d : I2CDevice) : Z :=
  reg_byte (regs d) _REG_TEMP_OUT_L + 256 * reg_byte (regs d) _REG_TEMP_OUT_H.

(** The 16-bit threshold THS_P as the device holds it. *)
Definition ths_p (d : I2CDevice) : Z :=
  reg_byte (regs d) _REG_THS_P_L + 256 * reg_byte (regs d) _REG_THS_P_H.

(** The register value a field write sends, from the value read. *)
Definition field_update (f : Bits) (old value : Z) : Z :=
  Z.lor (Z.land old (Z.lnot (bit_mask f))) (Z.shiftl value (lowest_bit f)).

(** Reading a field of a one-byte register back after writing it. *)
Definition field_read_back (f : Bits) (old value : Z) : Z :=
  Z.shiftr (Z.land (Z.land (Z.land (field_update f old value) 255) 255)
                   (bit_mask f))
           (lowest_bit f).

Definition bit_update (f : Bit) (old : Z) (value : bool) : Z :=
  if value then Z.lor old (bit_bitmask f)
  else Z.land old (Z.lnot (bit_bitmask f)).

(** A descriptor access that leaves register [a] as it was, however it
    ends; a method that moreover leaves the cached scale as it was. *)
Definition keeps_reg {A} (a : Z) (m : M I2CDevice A) : Prop :=
  forall d o d', m d = (o, d') -> regs d' !! a = regs d !! a.

Definition keeps_scale_and_reg {A} (a : Z) (m : M LPS28 A) : Prop :=
  forall self o self',
    m self = (o, self') ->
    _pressure_scale self' = _pressure_scale self /\
    regs (i2c_device self') !! a = regs (i2c_device self) !! a.

(** The calls of the public interface, and what each one runs. *)
Inductive call : Type :=
  | GetDataRate | SetDataRate (value : Z)
  | GetResolution | SetResolution (value : Z)
  | GetFullScale | SetFullScale (value : Z)
  | GetPressure | GetTemperature
  | GetHighThresholdEnabled | SetHighThresholdEnabled (value : pyobj)
  | GetLowThresholdEnabled | SetLowThresholdEnabled (value : pyobj)
  | GetHighThresholdExceeded | GetLowThresholdExceeded
  | GetPressureThreshold | SetPressureThreshold (value : Q).

Definition returning {S A} (inj : A -> pyobj) (m : M S A) : M S pyobj :=
  a <- m ;; ret (inj a).

Definition perform (c : call) : M LPS28 pyobj :=
  let none := fun _ : unit => PBool false in
  match c with
  | GetDataRate => returning PStr data_rate
  | SetDataRate v => returning none (set_data_rate v)
  | GetResolution => returning PStr resolution
  | SetResolution v => returning none (set_resolution v)
  | GetFullScale => returning PStr full_scale
  | SetFullScale v => returning none (set_full_scale v)
  | GetPressure => returning PFloat pressure
  | GetTemperature => returning PFloat temperature
  | GetHighThresholdEnabled => returning PBool high_threshold_enabled
  | SetHighThresholdEnabled b => returning none (set_high_threshold_enabled b)
  | GetLowThresholdEnabled => returning PBool low_threshold_enabled
  | SetLowThresholdEnabled b => returning none (set_low_threshold_enabled b)
  | GetHighThresholdExceeded => returning PBool high_threshold_exceeded
  | GetLowThresholdExceeded => returning PBool low_threshold_exceeded
  | GetPressureThreshold => returning PFloat pressure_threshold
  | SetPressureThreshold q => returning none (set_pressure_threshold q)
  end.

(** "Setting then getting returns the same value": the getter returns,
    and what it returns compares equal to the value that was set. *)
Definition returns_same_value (value : Z) (got : outcome string) : Prop :=
  exists s, got = Return s /\ py_eq (PStr s) (PInt value) = true.

(** The names the documentation tables of the getters give the settings. *)
Definition data_rate_names : list (Z * string) :=
  [(ONE_SHOT, "ONE_SHOT"); (RATE_1_HZ, "RATE_1_HZ"); (RATE_4_HZ, "RATE_4_HZ");
   (RATE_10_HZ, "RATE_10_HZ"); (RATE_25_HZ, "RATE_25_HZ");
   (RATE_50_HZ, "RATE_50_HZ"); (RATE_75_HZ, "RATE_75_HZ");
   (RATE_100_HZ, "RATE_100_HZ"); (RATE_200_HZ, "RATE_200_HZ")].

Definition resolution_names_below_512 : list (Z * string) :=
  [(RES_4, "RES_4"); (RES_8, "RES_8"); (RES_16, "RES_16"); (RES_32, "RES_32");
   (RES_64, "RES_64"); (RES_128, "RES_128")].

Definition full_scale_names : list (Z * string) :=
  [(NORMAL, "NORMAL"); (FULL_SCALE, "FULL_SCALE")].

(** Sample devices.  [sensor_at_reset]: a sensor after power-up, identity
    0xB4 and every other register cleared.  [sensor_in_full_scale]: the
    same sensor left in full-scale mode by an earlier session (FS_MODE
    set).  [wrong_chip]: another chip answering at the address. *)
Definition device_with (r : gmap Z Z) (fs : list bool) : I2CDevice :=
  mkI2CDevice 0x5D r [] fs.

Definition sensor_at_reset : I2CDevice :=
  device_with (<[_REG_WHOAMI := 0xB4]> ∅) [].
Definition sensor_in_full_scale : I2CDevice :=
  device_with (<[_REG_WHOAMI := 0xB4]> (<[_REG_CTRL_REG2 := 0x40]> ∅)) [].
Definition wrong_chip : I2CDevice :=
  device_with (<[_REG_WHOAMI := 0xB1]> ∅) [].
Definition sensor_write_fails : I2CDevice :=
  device_with (<[_REG_WHOAMI := 0xB4]> ∅) [false; true].

Definition lps_at_reset : LPS28 := mkLPS28 sensor_at_reset 4096.
Definition lps_write_fails : LPS28 := mkLPS28 sensor_write_fails 4096.

(** A sensor reporting raw pressure 0x001000 and raw temperature 2500
    (0x09C4), and one reporting raw temperature -100 (0xFF9C). *)
Definition sensor_sample : I2CDevice :=
  device_with (<[_REG_PRESS_OUT_L := 0x10]>
              (<[_REG_TEMP_OUT_L := 0xC4]> (<[_REG_TEMP_OUT_H := 0x09]> ∅))) [].
Definition sensor_cold : I2CDevice :=
  device_with (<[_REG_TEMP_OUT_L := 0x9C]> (<[_REG_TEMP_OUT_H := 0xFF]> ∅)) [].

(** ** Vocabulary of the further properties *)

(** The scales the driver ever assigns. *)
Definition valid_scale (self : LPS28) : Prop :=
  _pressure_scale self = 4096 \/ _pressure_scale self = 2048.

(** What the device holds that the driver can change: the registers, and
    the log of the writes done. *)
Definition same_device (d d' : I2CDevice) : Prop :=
  regs d' = regs d /\ writes d' = writes d.

(** A descriptor access that writes nothing, however it ends; one that
    has written nothing when it raises. *)
Definition read_only {A} (m : M I2CDevice A) : Prop :=
  forall d o d', m d = (o, d') -> same_device d d'.

Definition fails_clean {A} (m : M I2CDevice A) : Prop :=
  forall d e d', m d = (Raise e, d') -> same_device d d'.

(** The same for a method; a read-only method also keeps the cache. *)
Definition method_read_only {A} (m : M LPS28 A) : Prop :=
  forall self o self',
    m self = (o, self') ->
    same_device (i2c_device self) (i2c_device self') /\
    _pressure_scale self' = _pressure_scale self.

Definition method_keeps_device {A} (m : M LPS28 A) : Prop :=
  forall self o self',
    m self = (o, self') -> same_device (i2c_device self) (i2c_device self').

Definition method_fails_clean {A} (m : M LPS28 A) : Prop :=
  forall self e self',
    m self = (Raise e, self') ->
    same_device (i2c_device self) (i2c_device self').

(** The calls that are property reads. *)
Definition is_getter (c : call) : bool :=
  match c with
  | SetDataRate _ | SetResolution _ | SetFullScale _
  | SetHighThresholdEnabled _ | SetLowThresholdEnabled _
  | SetPressureThreshold _ => false
  | _ => true
  end.

(** The register a setter call writes: its address and byte count. *)
Definition call_register (c : call) : option (Z * nat) :=
  match c with
  | SetDataRate _ | SetResolution _ => Some (_REG_CTRL_REG1, 1%nat)
  | SetFullScale _ => Some (_REG_CTRL_REG2, 1%nat)
  | SetHighThresholdEnabled _ | SetLowThresholdEnabled _ =>
      Some (_REG_INTERRUPT_CFG, 1%nat)
  | SetPressureThreshold _ => Some (_REG_THS_P_L, 2%nat)
  | _ => None
  end.

(** The device after exactly one write of [n] bytes from register [a]
    on, and nothing else. *)
Definition wrote_once (a : Z) (n : nat) (d d' : I2CDevice) : Prop :=
  (exists bs, length bs = n /\ writes d' = writes d ++ [(a, bs)]) /\
  (forall x, x < a \/ a + Z.of_nat n <= x -> regs d' !! x = regs d !! x).

(** An access that, when it returns, has done exactly that. *)
Definition writes_once {A} (a : Z) (n : nat) (m : M I2CDevice A) : Prop :=
  forall d u d', m d = (Return u, d') -> wrote_once a n d d'.

Definition method_writes_once {A} (a : Z) (n : nat) (m : M LPS28 A) : Prop :=
  forall self u self',
    m self = (Return u, self') ->
    wrote_once a n (i2c_device self) (i2c_device self').

(** A computation that raises only exceptions satisfying [P]. *)
Definition raises_only {S A} (P : exn -> Prop) (m : M S A) : Prop :=
  forall s e s', m s = (Raise e, s') -> P e.



(** INTERRUPT_CFG and INT_SOURCE as the device holds them. *)
Definition interrupt_cfg (d : I2CDevice) : Z :=
  reg_byte (regs d) _REG_INTERRUPT_CFG.
Definition int_source (d : I2CDevice) : Z :=
  reg_byte (regs d) _REG_INT_SOURCE.

(** The threshold factor of the mode the device is in. *)
Definition threshold_factor (d : I2CDevice) : Z :=
  if fs_mode d then 8 else 16.

(** A threshold the register can hold exactly: raw [k] in the mode of
    factor [f]. *)
Definition threshold_of_raw (k f : Z) : Q := Qred (inject_Z k / inject_Z f).

(** Sample devices: one whose identity read fails, one whose CTRL_REG1
    read fails, one holding full-scale mode and a raw threshold of 200,
    and one whose ODR field holds the unused code 0b1010. *)
Definition sensor_silent : I2CDevice :=
  device_with (<[_REG_WHOAMI := 0xB4]> ∅) [true].
Definition sensor_read_fails : I2CDevice :=
  device_with (<[_REG_WHOAMI := 0xB4]> ∅) [false; true].
Definition sensor_with_threshold : I2CDevice :=
  device_with (<[_REG_CTRL_REG2 := 0x40]> (<[_REG_THS_P_L := 200]> ∅)) [].
Definition sensor_odd_rate : I2CDevice :=
  device_with (<[_REG_CTRL_REG1 := 0x56]> ∅) [].

(** * Properties *)

(** ** Bits and bytes *)

Lemma land_pow2 (a n : Z) :
  0 <= n -> Z.land a (2 ^ n) = if Z.testbit a n then 2 ^ n else 0.
Proof.
  intros Hn. apply Z.bits_inj'. intros m Hm.
  rewrite Z.land_spec, Z.pow2_bits_eqb by lia.
  destruct (Z.eqb_spec n m) as [->|Hne].
  - destruct (Z.testbit a m) eqn:E; simpl.
    + rewrite Z.pow2_bits_eqb, Z.eqb_refl by lia. reflexivity.
    + now rewrite Z.bits_0.
  - rewrite andb_false_r.
    destruct (Z.testbit a n).
    + rewrite Z.pow2_bits_eqb by lia. symmetry. now apply Z.eqb_neq.
    + now rewrite Z.bits_0.
Qed.

Lemma mask_test_testbit (a n : Z) :
  0 <= n -> negb (Z.land a (Z.shiftl 1 n) =? 0) = Z.testbit a n.
Proof.
  intros Hn. rewrite Z.shiftl_1_l, land_pow2 by lia.
  destruct (Z.testbit a n); simpl; [|reflexivity].
  apply negb_true_iff, Z.eqb_neq.
  pose proof (Z.pow_pos_nonneg 2 n). lia.
Qed.

Lemma _twos_comp_testbit (val : Z) :
  _twos_comp val 24 = if Z.testbit val 23 then val - 2 ^ 24 else val.
Proof.
  unfold _twos_comp. change (24 - 1) with 23.
  rewrite mask_test_testbit by lia. reflexivity.
Qed.

Lemma testbit_top (val n : Z) :
  0 <= n -> 0 <= val < 2 ^ (n + 1) -> Z.testbit val n = (2 ^ n <=? val).
Proof.
  intros Hn Hv.
  assert (Hp : 0 < 2 ^ n) by (apply Z.pow_pos_nonneg; lia).
  replace (2 ^ (n + 1)) with (2 * 2 ^ n) in Hv
    by (rewrite Z.pow_add_r by lia; lia).
  destruct (Z.leb_spec (2 ^ n) val) as [Hle|Hlt].
  - apply Z.testbit_true; [lia|].
    replace (val / 2 ^ n) with 1; [reflexivity|].
    apply (Z.div_unique val (2 ^ n) 1 (val - 2 ^ n)); lia.
  - destruct (Z.eq_dec val 0) as [->|Hnz]; [apply Z.bits_0|].
    apply Z.bits_above_log2; [lia|].
    apply Z.log2_lt_pow2; lia.
Qed.

Lemma reg_byte_range (r : gmap Z Z) (a : Z) : 0 <= reg_byte r a < 256.
Proof.
  unfold reg_byte. change 255 with (Z.ones 8).
  rewrite Z.land_ones by lia. apply Z.mod_pos_bound. lia.
Qed.

(** A property of the integers below [n], checked on each of them; a
    property of bytes, checked on the 256 of them. *)
Lemma all_below (n : nat) (P : Z -> bool) :
  forallb P (map Z.of_nat (seq 0 n)) = true ->
  forall b, 0 <= b < Z.of_nat n -> P b = true.
Proof.
  intros H b Hb. rewrite forallb_forall in H. apply H.
  apply in_map_iff. exists (Z.to_nat b). split; [lia|].
  apply in_seq. lia.
Qed.

Lemma all_bytes (P : Z -> bool) :
  forallb P (map Z.of_nat (seq 0 256)) = true ->
  forall b, 0 <= b < 256 -> P b = true.
Proof. exact (all_below 256 P). Qed.

Lemma le_int_1 (b : Z) : le_int [b] = b.
Proof. reflexivity. Qed.

Lemma le_int_cons (b : Z) (bs : list Z) :
  0 <= b < 256 -> le_int (b :: bs) = b + 256 * le_int bs.
Proof.
  intros Hb. unfold le_int. simpl fold_right. fold (le_int bs).
  rewrite Z.shiftl_mul_pow2 by lia.
  assert (Hdisjoint : Z.land (le_int bs * 2 ^ 8) b = 0).
  { apply Z.bits_inj'. intros n Hn. rewrite Z.land_spec, Z.bits_0.
    destruct (Z.ltb_spec n 8).
    - rewrite Z.mul_pow2_bits_low by lia. reflexivity.
    - destruct (Z.eq_dec b 0) as [->|]; [now rewrite Z.bits_0, andb_false_r|].
      rewrite (Z.bits_above_log2 b n); [apply andb_false_r|lia|].
      apply Z.lt_le_trans with 8; [|lia].
      apply Z.log2_lt_pow2; simpl; lia. }
  rewrite <- Z.lxor_lor, <- Z.add_nocarry_lxor by assumption.
  change (2 ^ 8) with 256. lia.
Qed.

(** ** The transport, one transaction at a time *)

Lemma write_then_readinto_eq (a : Z) (n : nat) (d : I2CDevice) :
  write_then_readinto a n d =
    if hd false (faults d) then (Raise OSError, advance d)
    else (Return (read_bytes (regs d) a n), advance d).
Proof.
  unfold write_then_readinto, transaction.
  destruct (hd false (faults d)); reflexivity.
Qed.

Lemma i2c_write_eq (a : Z) (bs : list Z) (d : I2CDevice) :
  i2c_write a bs d =
    if hd false (faults d) then (Raise OSError, advance d)
    else (Return tt, wrote a bs (advance d)).
Proof.
  unfold i2c_write, transaction.
  destruct (hd false (faults d)); reflexivity.
Qed.

Lemma advance_reliable (d : I2CDevice) : reliable d -> advance d = d.
Proof.
  unfold reliable, advance, with_faults. destruct d as [addr r w fs]; simpl.
  intros ->. reflexivity.
Qed.

Lemma read_reliable (a : Z) (n : nat) (d : I2CDevice) :
  reliable d ->
  write_then_readinto a n d = (Return (read_bytes (regs d) a n), d).
Proof.
  intros H. rewrite write_then_readinto_eq, advance_reliable by assumption.
  unfold reliable in H. rewrite H. reflexivity.
Qed.

Lemma write_reliable (a : Z) (bs : list Z) (d : I2CDevice) :
  reliable d -> i2c_write a bs d = (Return tt, wrote a bs d).
Proof.
  intros H. rewrite i2c_write_eq, advance_reliable by assumption.
  unfold reliable in H. rewrite H. reflexivity.
Qed.

Lemma wrote_reliable (a : Z) (bs : list Z) (d : I2CDevice) :
  reliable d -> reliable (wrote a bs d).
Proof. intros H. exact H. Qed.

Lemma store_bytes_outside (bs : list Z) :
  forall (r : gmap Z Z) (a x : Z),
    x < a \/ a + Z.of_nat (length bs) <= x ->
    store_bytes r a bs !! x = r !! x.
Proof.
  induction bs as [|b bs IH]; intros r a x Hx; simpl in *; [reflexivity|].
  rewrite IH by lia. apply lookup_insert_ne. lia.
Qed.

Lemma reg_byte_store_outside (r : gmap Z Z) (a x : Z) (bs : list Z) :
  x < a \/ a + Z.of_nat (length bs) <= x ->
  reg_byte (store_bytes r a bs) x = reg_byte r x.
Proof. intros Hx. unfold reg_byte. now rewrite store_bytes_outside. Qed.

Lemma reg_byte_store_1 (r : gmap Z Z) (a b : Z) :
  reg_byte (store_bytes r a [b]) a = Z.land b 255.
Proof.
  unfold reg_byte. simpl. rewrite lookup_insert_eq. simpl.
  rewrite <- Z.land_assoc. reflexivity.
Qed.

Lemma reg_byte_store_2 (r : gmap Z Z) (a b0 b1 : Z) :
  reg_byte (store_bytes r a [b0; b1]) a = Z.land b0 255 /\
  reg_byte (store_bytes r a [b0; b1]) (a + 1) = Z.land b1 255.
Proof.
  unfold reg_byte. simpl. split.
  - rewrite lookup_insert_ne by lia. rewrite lookup_insert_eq. simpl.
    now rewrite <- Z.land_assoc.
  - rewrite lookup_insert_eq. simpl. now rewrite <- Z.land_assoc.
Qed.

(** ** Which registers an access can touch *)

Lemma keeps_reg_read (x a : Z) (n : nat) : keeps_reg x (write_then_readinto a n).
Proof.
  intros d o d'. rewrite write_then_readinto_eq.
  destruct (hd false (faults d)); intros [= <- <-]; reflexivity.
Qed.

Lemma keeps_reg_write (x a : Z) (bs : list Z) :
  x < a \/ a + Z.of_nat (length bs) <= x -> keeps_reg x (i2c_write a bs).
Proof.
  intros Hx d o d'. rewrite i2c_write_eq.
  destruct (hd false (faults d)); intros [= <- <-]; [reflexivity|].
  simpl. now apply store_bytes_outside.
Qed.

Lemma keeps_reg_ret {A} (x : Z) (a : A) : keeps_reg x (ret a).
Proof. intros d o d' [= <- <-]. reflexivity. Qed.

Lemma keeps_reg_raise {A} (x : Z) (e : exn) : keeps_reg x (@raise _ A e).
Proof. intros d o d' [= <- <-]. reflexivity. Qed.

Lemma keeps_reg_bind {A B} (x : Z) (m : M I2CDevice A) (k : A -> M I2CDevice B) :
  keeps_reg x m -> (forall a, keeps_reg x (k a)) -> keeps_reg x (bind m k).
Proof.
  intros Hm Hk d o d'. unfold bind.
  destruct (m d) as [[a|e] d1] eqn:E; intros H.
  - rewrite (Hk a _ _ _ H). exact (Hm _ _ _ E).
  - injection H as <- <-. exact (Hm _ _ _ E).
Qed.

Lemma length_le_bytes (n : nat) : forall reg, length (le_bytes reg n) = n.
Proof. induction n as [|n IH]; intros reg; simpl; [|rewrite IH]; reflexivity. Qed.

Lemma length_read_bytes (r : gmap Z Z) (n : nat) :
  forall a, length (read_bytes r a n) = n.
Proof. induction n as [|n IH]; intros a; simpl; [|rewrite IH]; reflexivity. Qed.

Lemma keeps_reg_Bits_get (x : Z) (f : Bits) : keeps_reg x (Bits_get f).
Proof.
  apply keeps_reg_bind; [apply keeps_reg_read|]. intros buf. apply keeps_reg_ret.
Qed.

Lemma keeps_reg_Bits_set (x : Z) (f : Bits) (value : Z) :
  x < bits_address f \/ bits_address f + Z.of_nat (bits_width f) <= x ->
  keeps_reg x (Bits_set f value).
Proof.
  intros Hx. apply keeps_reg_bind; [apply keeps_reg_read|]. intros buf.
  apply keeps_reg_write. now rewrite length_le_bytes.
Qed.

Lemma keeps_reg_Bit_get (x : Z) (f : Bit) : keeps_reg x (Bit_get f).
Proof.
  apply keeps_reg_bind; [apply keeps_reg_read|]. intros buf.
  destruct (buf !! bit_byte f); [apply keeps_reg_ret|apply keeps_reg_raise].
Qed.

Lemma keeps_reg_Bit_set (x : Z) (f : Bit) (value : bool) :
  x < bit_address f \/ bit_address f + Z.of_nat (bit_width f) <= x ->
  keeps_reg x (Bit_set f value).
Proof.
  intros Hx d o d'. unfold Bit_set, bind. rewrite write_then_readinto_eq.
  destruct (hd false (faults d)); [intros [= <- <-]; reflexivity|].
  destruct (_ !! bit_byte f) eqn:E; [|intros [= <- <-]; reflexivity].
  intros H. apply (keeps_reg_write x) in H; [exact H|].
  now rewrite length_insert, length_read_bytes.
Qed.

Lemma keeps_reg_Struct_get (x : Z) (f : Struct) : keeps_reg x (Struct_get f).
Proof.
  apply keeps_reg_bind; [apply keeps_reg_read|]. intros buf. apply keeps_reg_ret.
Qed.

Lemma keeps_reg_Struct_set (x : Z) (f : Struct) (value : Q) :
  x < struct_address f \/
  struct_address f + Z.of_nat (calcsize (format f)) <= x ->
  keeps_reg x (Struct_set f value).
Proof.
  intros Hx. apply keeps_reg_write. unfold pack. now rewrite length_le_bytes.
Qed.

(** The same through [self]. *)
Lemma keeps_on_bus {A} (x : Z) (m : M I2CDevice A) :
  keeps_reg x m -> keeps_scale_and_reg x (on_bus m).
Proof.
  intros Hm self o self'. unfold on_bus.
  destruct (m (i2c_device self)) as [o1 d1] eqn:E. intros [= <- <-]. simpl.
  split; [reflexivity|exact (Hm _ _ _ E)].
Qed.

Lemma keeps_lift_outcome {A} (x : Z) (o : outcome A) :
  keeps_scale_and_reg x (lift_outcome o).
Proof. intros self o' self' [= <- <-]. split; reflexivity. Qed.

Lemma keeps_self_raise {A} (x : Z) (e : exn) :
  keeps_scale_and_reg x (@raise _ A e).
Proof. intros self o' self' [= <- <-]. split; reflexivity. Qed.

Lemma keeps_self_ret {A} (x : Z) (a : A) : keeps_scale_and_reg x (ret a).
Proof. intros self o' self' [= <- <-]. split; reflexivity. Qed.

Lemma keeps_get_state (x : Z) : keeps_scale_and_reg x get_state.
Proof. intros self o' self' [= <- <-]. split; reflexivity. Qed.

Lemma keeps_self_bind {A B} (x : Z) (m : M LPS28 A) (k : A -> M LPS28 B) :
  keeps_scale_and_reg x m -> (forall a, keeps_scale_and_reg x (k a)) ->
  keeps_scale_and_reg x (bind m k).
Proof.
  intros Hm Hk self o self'. unfold bind.
  destruct (m self) as [[a|e] s1] eqn:E; intros H.
  - destruct (Hm _ _ _ E) as [Hs Hr]. destruct (Hk a _ _ _ H) as [Hs' Hr'].
    split; congruence.
  - injection H as <- <-. exact (Hm _ _ _ E).
Qed.

(** ** The descriptors on a transport that answers *)

Lemma Bits_get_reliable (f : Bits) (d : I2CDevice) :
  bits_width f = 1%nat -> reliable d ->
  Bits_get f d =
    (Return (Z.shiftr (Z.land (reg_byte (regs d) (bits_address f)) (bit_mask f))
                      (lowest_bit f)), d).
Proof.
  intros Hw Hd. unfold Bits_get, bind.
  rewrite read_reliable, Hw by assumption. reflexivity.
Qed.

Lemma Bits_set_reliable (f : Bits) (value : Z) (d : I2CDevice) :
  bits_width f = 1%nat -> reliable d ->
  Bits_set f value d =
    (Return tt,
     wrote (bits_address f)
           [Z.land (field_update f (reg_byte (regs d) (bits_address f)) value) 255]
           d).
Proof.
  intros Hw Hd. unfold Bits_set, bind.
  rewrite read_reliable, Hw by assumption. simpl read_bytes.
  rewrite le_int_1. now rewrite write_reliable.
Qed.

Lemma Bit_get_reliable (f : Bit) (d : I2CDevice) :
  bit_width f = 1%nat -> bit_byte f = 0%nat -> reliable d ->
  Bit_get f d =
    (Return (negb (Z.land (reg_byte (regs d) (bit_address f)) (bit_bitmask f) =? 0)),
     d).
Proof.
  intros Hw Hb Hd. unfold Bit_get, bind.
  rewrite read_reliable, Hw, Hb by assumption. reflexivity.
Qed.

(** A single-bit write on any transport: the read may fail, the write
    may fail, or the register is written. *)
Lemma Bit_set_eq (f : Bit) (value : bool) (d : I2CDevice) :
  bit_width f = 1%nat -> bit_byte f = 0%nat ->
  Bit_set f value d =
    if hd false (faults d) then (Raise OSError, advance d)
    else if hd false (faults (advance d))
         then (Raise OSError, advance (advance d))
         else (Return tt,
               wrote (bit_address f)
                     [bit_update f (reg_byte (regs d) (bit_address f)) value]
                     (advance (advance d))).
Proof.
  intros Hw Hb. unfold Bit_set, bind.
  rewrite write_then_readinto_eq, Hw, Hb.
  destruct (hd false (faults d)); [reflexivity|].
  change (read_bytes (regs d) (bit_address f) 1)
    with [reg_byte (regs d) (bit_address f)].
  change ([reg_byte (regs d) (bit_address f)] !! 0%nat)
    with (Some (reg_byte (regs d) (bit_address f))).
  cbv beta iota. rewrite i2c_write_eq.
  destruct (hd false (faults (advance d))); reflexivity.
Qed.

Lemma Struct_get_reliable (f : Struct) (d : I2CDevice) :
  reliable d ->
  Struct_get f d =
    (Return (unpack (format f)
                    (read_bytes (regs d) (struct_address f) (calcsize (format f)))),
     d).
Proof.
  intros Hd. unfold Struct_get, bind. now rewrite read_reliable.
Qed.

Lemma Struct_set_reliable (f : Struct) (value : Q) (d : I2CDevice) :
  reliable d ->
  Struct_set f value d =
    (Return tt, wrote (struct_address f) (pack (format f) value) d).
Proof. intros Hd. unfold Struct_set. now rewrite write_reliable. Qed.

(** ** The FS_MODE bit *)

Lemma fs_mode_read (d : I2CDevice) :
  negb (Z.land (reg_byte (regs d) _REG_CTRL_REG2) (bit_bitmask _reg_full_scale) =? 0)
  = fs_mode d.
Proof. apply (mask_test_testbit _ 6). lia. Qed.

Lemma fs_mode_written (old : Z) (value : bool) (d : I2CDevice) :
  fs_mode (wrote _REG_CTRL_REG2 [bit_update _reg_full_scale old value] d) = value.
Proof.
  unfold fs_mode, wrote. cbn [regs]. rewrite reg_byte_store_1.
  rewrite Z.land_spec. change (Z.testbit 255 6) with true. rewrite andb_true_r.
  unfold bit_update. change (bit_bitmask _reg_full_scale) with (2 ^ 6).
  destruct value.
  - rewrite Z.lor_spec, Z.pow2_bits_true by lia. apply orb_true_r.
  - rewrite Z.land_spec, Z.lnot_spec, Z.pow2_bits_true by lia. apply andb_false_r.
Qed.

Lemma fs_mode_same_reg (d d' : I2CDevice) :
  regs d' !! _REG_CTRL_REG2 = regs d !! _REG_CTRL_REG2 -> fs_mode d' = fs_mode d.
Proof. unfold fs_mode, reg_byte. now intros ->. Qed.

Lemma scale_invariant_iff (self : LPS28) :
  scale_invariant self <->
  _pressure_scale self = if fs_mode (i2c_device self) then 2048 else 4096.
Proof.
  unfold scale_invariant. destruct (fs_mode (i2c_device self)); split.
  - intros [_ [_ H]]. now apply H.
  - intros ->. split; split; intros H; try discriminate; reflexivity.
  - intros [[_ H] _]. now apply H.
  - intros ->. split; split; intros H; try discriminate; reflexivity.
Qed.

(** ** Measurements *)

Lemma self_eta (self : LPS28) :
  mkLPS28 (i2c_device self) (_pressure_scale self) = self.
Proof. now destruct self. Qed.

Lemma on_bus_returns {A} (m : M I2CDevice A) (self : LPS28) (a : A) :
  m (i2c_device self) = (Return a, i2c_device self) ->
  on_bus m self = (Return a, self).
Proof. intros H. unfold on_bus. rewrite H. now rewrite self_eta. Qed.

Lemma py_truediv_nonzero (a : Q) (b : Z) :
  b <> 0 -> py_truediv a (inject_Z b) = Return (Qred (a / inject_Z b)).
Proof.
  intros Hb. unfold py_truediv.
  destruct (Qeq_bool (inject_Z b) 0) eqn:E; [|reflexivity].
  apply Qeq_bool_eq in E. unfold Qeq in E. simpl in E. lia.
Qed.

Lemma raw_pressure_reliable (d : I2CDevice) :
  reliable d -> Bits_get _reg_raw_pressure d = (Return (press_out d), d).
Proof.
  intros Hd. unfold Bits_get, bind. rewrite read_reliable by assumption.
  cbv beta iota. unfold ret.
  change (bits_width _reg_raw_pressure) with 3%nat.
  change (bit_mask _reg_raw_pressure) with (Z.ones 24).
  change (lowest_bit _reg_raw_pressure) with 0.
  change (bits_address _reg_raw_pressure) with _REG_PRESS_OUT_XL.
  unfold read_bytes.
  pose proof (reg_byte_range (regs d) _REG_PRESS_OUT_XL) as HXL.
  pose proof (reg_byte_range (regs d) (_REG_PRESS_OUT_XL + 1)) as HL.
  pose proof (reg_byte_range (regs d) (_REG_PRESS_OUT_XL + 1 + 1)) as HH.
  rewrite !le_int_cons by assumption. change (le_int []) with 0.
  rewrite Z.shiftr_0_r, Z.land_ones by lia.
  unfold press_out.
  change (_REG_PRESS_OUT_XL + 1 + 1) with _REG_PRESS_OUT_H in *.
  change (_REG_PRESS_OUT_XL + 1) with _REG_PRESS_OUT_L in *.
  change (2 ^ 24) with 16777216.
  rewrite Z.mod_small by lia. do 2 f_equal. lia.
Qed.

Lemma pressure_reliable (self : LPS28) :
  reliable (i2c_device self) -> _pressure_scale self <> 0 ->
  pressure self =
    (Return (Qred (inject_Z (_twos_comp (press_out (i2c_device self)) 24)
                   / inject_Z (_pressure_scale self))), self).
Proof.
  intros Hd Hs. unfold pressure, bind.
  rewrite (on_bus_returns _ _ _ (raw_pressure_reliable _ Hd)).
  unfold get_state, lift_outcome. now rewrite py_truediv_nonzero.
Qed.

Lemma raw_temperature_reliable (d : I2CDevice) :
  reliable d ->
  Struct_get _reg_raw_temperature d =
    (Return (if 32768 <=? temp_out d then temp_out d - 65536 else temp_out d), d).
Proof.
  intros Hd. rewrite Struct_get_reliable by assumption. f_equal. f_equal.
  change (format _reg_raw_temperature) with fmt_h.
  change (struct_address _reg_raw_temperature) with _REG_TEMP_OUT_L.
  unfold calcsize, read_bytes, unpack.
  pose proof (reg_byte_range (regs d) _REG_TEMP_OUT_L) as HL.
  pose proof (reg_byte_range (regs d) (_REG_TEMP_OUT_L + 1)) as HH.
  rewrite !le_int_cons by assumption. change (le_int []) with 0.
  change (_REG_TEMP_OUT_L + 1) with _REG_TEMP_OUT_H in *.
  unfold temp_out. now rewrite Z.mul_0_r, Z.add_0_r.
Qed.

Lemma temperature_reliable (self : LPS28) :
  reliable (i2c_device self) ->
  let u := temp_out (i2c_device self) in
  temperature self =
    (Return (Qred (inject_Z (if 32768 <=? u then u - 65536 else u) / 100)), self).
Proof.
  intros Hd u. unfold temperature, bind.
  rewrite (on_bus_returns _ _ _ (raw_temperature_reliable _ Hd)).
  reflexivity.
Qed.

(** C2: the two's-complement decode of a 24-bit raw value subtracts 2^24
    exactly when bit 23 is set and otherwise returns the value unchanged
    (0x000001 gives 1, 0xFFFFFF gives -1, 0x800000 gives -8388608); the
    pressure read is the decoded PRESS_OUT value divided by the current
    pressure scale, so raw 0x001000 at scale 4096 reads 1.0 hPa. *)
Theorem twos_comp_decode_and_pressure :
  (forall val : Z,
      _twos_comp val 24 = if Z.testbit val 23 then val - 2 ^ 24 else val) /\
  _twos_comp 0x000001 24 = 1 /\
  _twos_comp 0xFFFFFF 24 = -1 /\
  _twos_comp 0x800000 24 = -8388608 /\
  (forall self : LPS28,
      reliable (i2c_device self) ->
      _pressure_scale self = 4096 \/ _pressure_scale self = 2048 ->
      pressure self =
        (Return (Qred (inject_Z (_twos_comp (press_out (i2c_device self)) 24)
                       / inject_Z (_pressure_scale self))), self)) /\
  press_out sensor_sample = 0x001000 /\
  pressure (mkLPS28 sensor_sample 4096) = (Return 1%Q, mkLPS28 sensor_sample 4096).
Proof.
  split; [exact _twos_comp_testbit|].
  repeat (split; [reflexivity|]).
  split; [|split; vm_compute; reflexivity].
  intros self Hd Hs. apply pressure_reliable; [assumption|lia].
Qed.

Lemma twos_comp_decode_and_pressure_witness :
  pressure (mkLPS28 sensor_sample 2048) =
    (Return (2 # 1)%Q, mkLPS28 sensor_sample 2048).
Proof.
  exact (proj1 (proj2 (proj2 (proj2 (proj2 twos_comp_decode_and_pressure))))
           (mkLPS28 sensor_sample 2048) eq_refl (or_intror eq_refl)).
Defined.

(** The decode of a 24-bit value is the signed reading of its bits. *)
Lemma _twos_comp_signed (val : Z) :
  0 <= val < 2 ^ 24 ->
  - 2 ^ 23 <= _twos_comp val 24 < 2 ^ 23 /\
  (_twos_comp val 24) mod 2 ^ 24 = val.
Proof.
  intros Hv. rewrite _twos_comp_testbit.
  rewrite (testbit_top val 23) by (simpl; lia).
  change (2 ^ 23) with 8388608 in *. change (2 ^ 24) with 16777216 in *.
  destruct (Z.leb_spec 8388608 val); split; try lia.
  - replace (val - 16777216) with (val + (-1) * 16777216) by lia.
    rewrite Z.mod_add by lia. apply Z.mod_small. lia.
  - apply Z.mod_small. lia.
Qed.

(** C8: the temperature read is the signed 16-bit little-endian TEMP_OUT
    value divided by 100, for every signed 16-bit raw value; raw 2500
    reads 25.00 and raw -100 reads -1.00. *)
Theorem temperature_is_raw_over_100 :
  (forall (self : LPS28) (raw : Z),
      reliable (i2c_device self) ->
      -32768 <= raw < 32768 ->
      reg_byte (regs (i2c_device self)) _REG_TEMP_OUT_L = raw mod 256 ->
      reg_byte (regs (i2c_device self)) _REG_TEMP_OUT_H = (raw / 256) mod 256 ->
      temperature self = (Return (Qred (inject_Z raw / 100)), self)) /\
  temperature (mkLPS28 sensor_sample 4096)
    = (Return 25%Q, mkLPS28 sensor_sample 4096) /\
  temperature (mkLPS28 sensor_cold 4096)
    = (Return (-1)%Q, mkLPS28 sensor_cold 4096).
Proof.
  split; [|split; vm_compute; reflexivity].
  intros self raw Hd Hraw HL HH.
  rewrite temperature_reliable by assumption. cbv zeta.
  unfold temp_out. rewrite HL, HH.
  set (u := raw mod 256 + 256 * ((raw / 256) mod 256)).
  assert (E : (if 32768 <=? u then u - 65536 else u) = raw).
  { subst u.
    destruct (Z.leb_spec 32768 (raw mod 256 + 256 * ((raw / 256) mod 256)));
      Z.div_mod_to_equations; lia. }
  now rewrite E.
Qed.

Lemma temperature_is_raw_over_100_witness :
  temperature (mkLPS28 sensor_cold 2048)
    = (Return (Qred (inject_Z (-100) / 100)), mkLPS28 sensor_cold 2048).
Proof.
  apply (proj1 temperature_is_raw_over_100 (mkLPS28 sensor_cold 2048) (-100));
    [reflexivity | lia | reflexivity | reflexivity].
Defined.

(** ** Validation *)

Lemma py_in_false (value : Z) (t : list Z) :
  ~ In value t -> py_in value t = false.
Proof.
  intros Hn. unfold py_in. apply not_true_is_false. intros H.
  apply existsb_exists in H. destruct H as [x [Hx E]].
  apply Z.eqb_eq in E. now subst.
Qed.

Lemma py_in_true (value : Z) (t : list Z) :
  In value t -> py_in value t = true.
Proof.
  intros Hin. unfold py_in. apply existsb_exists.
  exists value. split; [assumption|apply Z.eqb_refl].
Qed.

(** C6: each enumerated setter validates before any register access.  On
    a value outside its enumeration it raises ValueError and leaves the
    instance as it was: same registers, same cached scale, no transaction
    on the bus (the write log and the transport are untouched). *)
Theorem invalid_setting_leaves_device_untouched (value : Z) (self : LPS28) :
  (~ In value data_rate_values ->
   set_data_rate value self =
     (Raise (ValueError "Value must be a valid data_rate setting"), self)) /\
  (~ In value resolution_values ->
   set_resolution value self =
     (Raise (ValueError "Value must be a valid resolution setting"), self)) /\
  (~ In value full_scale_values ->
   set_full_scale value self =
     (Raise (ValueError "Value must be a valid scale setting"), self)).
Proof.
  repeat split; intros Hn.
  - unfold set_data_rate. now rewrite py_in_false.
  - unfold set_resolution. now rewrite py_in_false.
  - unfold set_full_scale. now rewrite py_in_false.
Qed.

Lemma invalid_setting_leaves_device_untouched_witness :
  set_data_rate 9 lps_at_reset =
    (Raise (ValueError "Value must be a valid data_rate setting"), lps_at_reset) /\
  set_resolution 6 lps_at_reset =
    (Raise (ValueError "Value must be a valid resolution setting"), lps_at_reset) /\
  set_full_scale 2 lps_at_reset =
    (Raise (ValueError "Value must be a valid scale setting"), lps_at_reset).
Proof.
  assert (H9 : ~ In 9 data_rate_values) by (simpl; intuition discriminate).
  assert (H6 : ~ In 6 resolution_values) by (simpl; intuition discriminate).
  assert (H2 : ~ In 2 full_scale_values) by (simpl; intuition discriminate).
  split; [|split].
  - exact (proj1 (invalid_setting_leaves_device_untouched 9 lps_at_reset) H9).
  - exact (proj1 (proj2 (invalid_setting_leaves_device_untouched 6 lps_at_reset)) H6).
  - exact (proj2 (proj2 (invalid_setting_leaves_device_untouched 2 lps_at_reset)) H2).
Defined.

(** ** Construction *)

Lemma device_id_eq (d : I2CDevice) :
  Struct_get _reg_device_id d =
    if hd false (faults d) then (Raise OSError, advance d)
    else (Return (reg_byte (regs d) _REG_WHOAMI), advance d).
Proof.
  unfold Struct_get, bind. rewrite write_then_readinto_eq.
  destruct (hd false (faults d)); reflexivity.
Qed.

(** What the ODR write makes of a CTRL_REG1 byte: ODR becomes the code
    written, AVG and the top bit stay. *)
Lemma odr_update (old : Z) :
  0 <= old < 256 ->
  let new := Z.land (field_update _reg_data_rate old RATE_10_HZ) 255 in
  odr_field new = RATE_10_HZ /\ avg_field new = avg_field old /\
  Z.testbit new 7 = Z.testbit old 7.
Proof.
  intros Hold new. subst new.
  pose (P := fun b =>
    let new := Z.land (field_update _reg_data_rate b RATE_10_HZ) 255 in
    (odr_field new =? RATE_10_HZ) && (avg_field new =? avg_field b)
    && Bool.eqb (Z.testbit new 7) (Z.testbit b 7)).
  assert (H : P old = true) by (apply all_bytes; [vm_compute; reflexivity|assumption]).
  unfold P in H. cbv zeta in H.
  apply andb_true_iff in H as [H H3]. apply andb_true_iff in H as [H1 H2].
  apply Z.eqb_eq in H1, H2. apply eqb_prop in H3. auto.
Qed.

Lemma init_wrong_identity (i2c : I2CDevice) :
  hd false (faults i2c) = false ->
  reg_byte (regs i2c) _REG_WHOAMI <> 0xB4 ->
  __init__ i2c = (Raise (RuntimeError "Failed to find LPS28"), advance i2c).
Proof.
  intros Hf Hid. unfold __init__, bind. rewrite device_id_eq, Hf.
  apply Z.eqb_neq in Hid. now rewrite Hid.
Qed.

Lemma init_right_identity (i2c : I2CDevice) :
  reliable i2c ->
  reg_byte (regs i2c) _REG_WHOAMI = 0xB4 ->
  let new := Z.land (field_update _reg_data_rate
                       (reg_byte (regs i2c) _REG_CTRL_REG1) RATE_10_HZ) 255 in
  __init__ i2c =
    (Return (mkLPS28 (wrote _REG_CTRL_REG1 [new] i2c) 4096),
     wrote _REG_CTRL_REG1 [new] i2c).
Proof.
  intros Hd Hid new. unfold __init__, bind.
  rewrite device_id_eq, advance_reliable by assumption.
  unfold reliable in Hd. rewrite Hd. cbv beta iota. simpl hd. cbv iota.
  rewrite Hid. change (negb (0xB4 =? 0xB4)) with false. cbv beta iota.
  rewrite Bits_set_reliable by (reflexivity || assumption).
  reflexivity.
Qed.

(** C7: construction reads the identity register.  For every byte other
    than 0xB4 it raises the device-not-found error, producing no
    instance and writing nothing.  For 0xB4 it returns an instance whose
    pressure scale is 4096, having performed exactly one write: CTRL_REG1
    with the output data rate set to 10 Hz and its other bits kept. *)
Theorem construction_checks_identity (i2c : I2CDevice) :
  reliable i2c ->
  (reg_byte (regs i2c) _REG_WHOAMI <> 0xB4 ->
   exists d,
     __init__ i2c = (Raise (RuntimeError "Failed to find LPS28"), d) /\
     regs d = regs i2c /\ writes d = writes i2c) /\
  (reg_byte (regs i2c) _REG_WHOAMI = 0xB4 ->
   exists self new,
     __init__ i2c = (Return self, i2c_device self) /\
     _pressure_scale self = 4096 /\
     writes (i2c_device self) = writes i2c ++ [(_REG_CTRL_REG1, [new])] /\
     regs (i2c_device self) = <[_REG_CTRL_REG1 := new]> (regs i2c) /\
     odr_field new = RATE_10_HZ /\
     avg_field new = avg_field (reg_byte (regs i2c) _REG_CTRL_REG1) /\
     Z.testbit new 7 = Z.testbit (reg_byte (regs i2c) _REG_CTRL_REG1) 7).
Proof.
  intros Hd. split; intros Hid.
  - exists (advance i2c). split; [|split; reflexivity].
    apply init_wrong_identity; [|assumption].
    unfold reliable in Hd. now rewrite Hd.
  - pose proof (init_right_identity i2c Hd Hid) as H. cbv zeta in H.
    pose proof (odr_update _ (reg_byte_range (regs i2c) _REG_CTRL_REG1)) as Hnew.
    cbv zeta in Hnew. destruct Hnew as [Hodr [Havg Htop]].
    eexists. eexists. split; [exact H|]. cbn [_pressure_scale i2c_device wrote writes regs].
    repeat split; try assumption.
    simpl store_bytes. f_equal.
    rewrite <- Z.land_assoc. reflexivity.
Qed.

Lemma construction_checks_identity_witness :
  (exists d,
     __init__ wrong_chip = (Raise (RuntimeError "Failed to find LPS28"), d) /\
     regs d = regs wrong_chip /\ writes d = writes wrong_chip) /\
  (exists self new,
     __init__ sensor_at_reset = (Return self, i2c_device self) /\
     _pressure_scale self = 4096 /\
     writes (i2c_device self) = writes sensor_at_reset ++ [(_REG_CTRL_REG1, [new])] /\
     regs (i2c_device self) = <[_REG_CTRL_REG1 := new]> (regs sensor_at_reset) /\
     odr_field new = RATE_10_HZ /\
     avg_field new = avg_field (reg_byte (regs sensor_at_reset) _REG_CTRL_REG1) /\
     Z.testbit new 7 = Z.testbit (reg_byte (regs sensor_at_reset) _REG_CTRL_REG1) 7).
Proof.
  split.
  - apply (proj1 (construction_checks_identity wrong_chip eq_refl)).
    vm_compute. discriminate.
  - apply (proj2 (construction_checks_identity sensor_at_reset eq_refl)).
    reflexivity.
Defined.

(** ** Enumerated settings: set, then get *)

Lemma field_read_back_exact (f : Bits) (codes : nat) :
  forallb (fun value =>
             forallb (fun old => field_read_back f old value =? value)
                     (map Z.of_nat (seq 0 256)))
          (map Z.of_nat (seq 0 codes)) = true ->
  forall old value,
    0 <= old < 256 -> 0 <= value < Z.of_nat codes ->
    field_read_back f old value = value.
Proof.
  intros H old value Hold Hvalue.
  pose proof (all_below codes _ H value Hvalue) as Hv. cbv beta in Hv.
  apply Z.eqb_eq.
  exact (all_below 256 (fun old => field_read_back f old value =? value) Hv old Hold).
Qed.

Lemma odr_read_back (old value : Z) :
  0 <= old < 256 -> 0 <= value < 16 ->
  field_read_back _reg_data_rate old value = value.
Proof. apply (field_read_back_exact _ 16). vm_compute. reflexivity. Qed.

Lemma avg_read_back (old value : Z) :
  0 <= old < 256 -> 0 <= value < 8 ->
  field_read_back _reg_resolution old value = value.
Proof. apply (field_read_back_exact _ 8). vm_compute. reflexivity. Qed.

Lemma field_set_then_get (f : Bits) (value : Z) (self : LPS28) :
  bits_width f = 1%nat -> reliable (i2c_device self) ->
  let old := reg_byte (regs (i2c_device self)) (bits_address f) in
  let self' := mkLPS28 (wrote (bits_address f)
                              [Z.land (field_update f old value) 255]
                              (i2c_device self))
                       (_pressure_scale self) in
  on_bus (Bits_set f value) self = (Return tt, self') /\
  on_bus (Bits_get f) self' = (Return (field_read_back f old value), self').
Proof.
  intros Hw Hd old self'. split.
  - unfold on_bus. now rewrite Bits_set_reliable.
  - apply on_bus_returns. subst self'. cbn [i2c_device].
    rewrite Bits_get_reliable by (assumption || now apply wrote_reliable).
    unfold wrote at 1. cbn [regs]. now rewrite reg_byte_store_1.
Qed.

Lemma field_set_then_get_reliable (f : Bits) (value : Z) (self : LPS28) :
  bits_width f = 1%nat -> reliable (i2c_device self) ->
  exists self',
    on_bus (Bits_set f value) self = (Return tt, self') /\
    reliable (i2c_device self') /\
    on_bus (Bits_get f) self' =
      (Return (field_read_back f (reg_byte (regs (i2c_device self)) (bits_address f))
                               value), self') /\
    Z.shiftr (Z.land (reg_byte (regs (i2c_device self')) (bits_address f))
                     (bit_mask f)) (lowest_bit f)
    = field_read_back f (reg_byte (regs (i2c_device self)) (bits_address f)) value.
Proof.
  intros Hw Hd.
  destruct (field_set_then_get f value self Hw Hd) as [Hset Hget].
  eexists. split; [exact Hset|]. split; [exact Hd|]. split; [exact Hget|].
  cbn [i2c_device]. unfold wrote. cbn [regs]. now rewrite reg_byte_store_1.
Qed.

Lemma odr_field_read (b : Z) :
  0 <= b < 256 ->
  Z.shiftr (Z.land b (bit_mask _reg_data_rate)) (lowest_bit _reg_data_rate)
  = odr_field b.
Proof.
  intros Hb. apply Z.eqb_eq.
  apply (all_bytes (fun b => Z.shiftr (Z.land b (bit_mask _reg_data_rate))
                                      (lowest_bit _reg_data_rate) =? odr_field b));
    [vm_compute; reflexivity|assumption].
Qed.

Lemma avg_field_read (b : Z) :
  0 <= b < 256 ->
  Z.shiftr (Z.land b (bit_mask _reg_resolution)) (lowest_bit _reg_resolution)
  = avg_field b.
Proof.
  intros Hb. apply Z.eqb_eq.
  apply (all_bytes (fun b => Z.shiftr (Z.land b (bit_mask _reg_resolution))
                                      (lowest_bit _reg_resolution) =? avg_field b));
    [vm_compute; reflexivity|assumption].
Qed.

Lemma data_rate_range (value : Z) : In value data_rate_values -> 0 <= value < 16.
Proof.
  unfold data_rate_values, ONE_SHOT, RATE_1_HZ, RATE_4_HZ, RATE_10_HZ, RATE_25_HZ,
    RATE_50_HZ, RATE_75_HZ, RATE_100_HZ, RATE_200_HZ. simpl. lia.
Qed.

Lemma resolution_range (value : Z) : In value resolution_values -> 0 <= value < 8.
Proof.
  unfold resolution_values, RES_4, RES_8, RES_16, RES_32, RES_64, RES_128, RES_512.
  simpl. lia.
Qed.

Lemma data_rate_set_then_get (value : Z) (self : LPS28) :
  reliable (i2c_device self) -> In value data_rate_values ->
  exists self',
    set_data_rate value self = (Return tt, self') /\
    on_bus (Bits_get _reg_data_rate) self' = (Return value, self') /\
    odr_field (reg_byte (regs (i2c_device self')) _REG_CTRL_REG1) = value.
Proof.
  intros Hd Hin.
  destruct (field_set_then_get_reliable _reg_data_rate value self eq_refl Hd)
    as [self' [Hset [Hd' [Hget Hreg]]]].
  pose proof (odr_read_back _ value
                (reg_byte_range (regs (i2c_device self)) _REG_CTRL_REG1)
                (data_rate_range _ Hin)) as Hback.
  change (bits_address _reg_data_rate) with _REG_CTRL_REG1 in *.
  rewrite Hback in Hget, Hreg.
  exists self'. split; [|split].
  - unfold set_data_rate. rewrite py_in_true by assumption. exact Hset.
  - exact Hget.
  - rewrite <- odr_field_read by apply reg_byte_range. exact Hreg.
Qed.

Lemma resolution_set_then_get (value : Z) (self : LPS28) :
  reliable (i2c_device self) -> In value resolution_values ->
  exists self',
    set_resolution value self = (Return tt, self') /\
    on_bus (Bits_get _reg_resolution) self' = (Return value, self') /\
    avg_field (reg_byte (regs (i2c_device self')) _REG_CTRL_REG1) = value.
Proof.
  intros Hd Hin.
  destruct (field_set_then_get_reliable _reg_resolution value self eq_refl Hd)
    as [self' [Hset [Hd' [Hget Hreg]]]].
  pose proof (avg_read_back _ value
                (reg_byte_range (regs (i2c_device self)) _REG_CTRL_REG1)
                (resolution_range _ Hin)) as Hback.
  change (bits_address _reg_resolution) with _REG_CTRL_REG1 in *.
  rewrite Hback in Hget, Hreg.
  exists self'. split; [|split].
  - unfold set_resolution. rewrite py_in_true by assumption. exact Hset.
  - exact Hget.
  - rewrite <- avg_field_read by apply reg_byte_range. exact Hreg.
Qed.

Lemma names_cover_the_enumerations :
  map fst data_rate_names = data_rate_values /\
  map fst resolution_names_below_512 ++ [RES_512] = resolution_values /\
  map fst full_scale_names = full_scale_values.
Proof. repeat split; reflexivity. Qed.

Lemma in_names_in_values (value : Z) (name : string) (t : list (Z * string)) :
  In (value, name) t -> In value (map fst t).
Proof. intros H. apply in_map_iff. now exists (value, name). Qed.

(** C3, as the code has it: for every value of the data-rate
    enumeration, setting data_rate to it and then getting data_rate
    returns the name of that value (the string the getter's table holds
    at that index), and the ODR field of CTRL_REG1 holds the value. *)
Theorem data_rate_round_trip_by_name (self : LPS28) (value : Z) (name : string) :
  reliable (i2c_device self) ->
  In (value, name) data_rate_names ->
  exists self',
    (set_data_rate value ;;; data_rate) self = (Return name, self') /\
    odr_field (reg_byte (regs (i2c_device self')) _REG_CTRL_REG1) = value.
Proof.
  intros Hd Hin.
  assert (Hv : In value data_rate_values)
    by (rewrite <- (proj1 names_cover_the_enumerations);
        exact (in_names_in_values _ _ _ Hin)).
  destruct (data_rate_set_then_get value self Hd Hv) as [self' [Hset [Hget Hreg]]].
  exists self'. split; [|exact Hreg].
  unfold bind at 1. rewrite Hset. unfold data_rate, bind. rewrite Hget.
  simpl in Hin.
  repeat (destruct Hin as [[= <- <-]|Hin]; [reflexivity|]). contradiction.
Qed.

Lemma data_rate_round_trip_by_name_witness :
  exists self',
    (set_data_rate RATE_200_HZ ;;; data_rate) lps_at_reset
      = (Return "RATE_200_HZ", self') /\
    odr_field (reg_byte (regs (i2c_device self')) _REG_CTRL_REG1) = RATE_200_HZ.
Proof.
  apply (data_rate_round_trip_by_name lps_at_reset RATE_200_HZ "RATE_200_HZ").
  - reflexivity.
  - simpl. do 8 right. left. reflexivity.
Defined.

(** C3, as stated, fails: after setting data_rate to RATE_10_HZ the
    getter returns the string "RATE_10_HZ", which is not the value 3. *)
Lemma data_rate_get_is_not_the_value_set :
  fst ((set_data_rate RATE_10_HZ ;;; data_rate) lps_at_reset) = Return "RATE_10_HZ" /\
  ~ returns_same_value RATE_10_HZ
      (fst ((set_data_rate RATE_10_HZ ;;; data_rate) lps_at_reset)).
Proof.
  split; [vm_compute; reflexivity|].
  intros [s [Hs Heq]].
  assert (E : fst ((set_data_rate RATE_10_HZ ;;; data_rate) lps_at_reset)
              = Return "RATE_10_HZ") by (vm_compute; reflexivity).
  rewrite E in Hs. injection Hs as <-. vm_compute in Heq. discriminate.
Qed.

Lemma full_scale_set_then_get (value : Z) (self : LPS28) :
  reliable (i2c_device self) -> In value full_scale_values ->
  let old := reg_byte (regs (i2c_device self)) _REG_CTRL_REG2 in
  let self' := mkLPS28 (wrote _REG_CTRL_REG2
                              [bit_update _reg_full_scale old (value =? 1)]
                              (i2c_device self))
                       (if value =? 1 then 2048 else 4096) in
  set_full_scale value self = (Return tt, self') /\
  on_bus (Bit_get _reg_full_scale) self' = (Return (value =? 1), self') /\
  fs_mode (i2c_device self') = (value =? 1).
Proof.
  intros Hd Hin old self'.
  assert (Hfs : fs_mode (i2c_device self') = (value =? 1))
    by apply fs_mode_written.
  assert (Hset : set_full_scale value self = (Return tt, self')).
  { assert (E : set_full_scale value self =
                on_bus (Bit_set _reg_full_scale (value =? 1))
                       (mkLPS28 (i2c_device self) (if value =? 1 then 2048 else 4096)))
      by (destruct Hin as [<-|[<-|[]]]; reflexivity).
    rewrite E. unfold on_bus. cbn [i2c_device _pressure_scale].
    rewrite Bit_set_eq by reflexivity.
    rewrite !advance_reliable by assumption.
    unfold reliable in Hd. rewrite Hd. reflexivity. }
  split; [exact Hset|]. split; [|exact Hfs].
  apply on_bus_returns.
  rewrite Bit_get_reliable by (reflexivity || exact Hd).
  now rewrite fs_mode_read, Hfs.
Qed.

(** C4, as the code has it: for the resolution values RES_4 to RES_128
    and for both full-scale values, setting the property and then
    getting it returns the name of the value set, and the register field
    holds the value. *)
Theorem resolution_and_full_scale_round_trip_by_name
    (self : LPS28) (value : Z) (name : string) :
  reliable (i2c_device self) ->
  (In (value, name) resolution_names_below_512 ->
   exists self',
     (set_resolution value ;;; resolution) self = (Return name, self') /\
     avg_field (reg_byte (regs (i2c_device self')) _REG_CTRL_REG1) = value) /\
  (In (value, name) full_scale_names ->
   exists self',
     (set_full_scale value ;;; full_scale) self = (Return name, self') /\
     fs_mode (i2c_device self') = (value =? 1)).
Proof.
  intros Hd. split; intros Hin.
  - assert (Hv : In value resolution_values).
    { rewrite <- (proj1 (proj2 names_cover_the_enumerations)).
      apply in_or_app. left. exact (in_names_in_values _ _ _ Hin). }
    destruct (resolution_set_then_get value self Hd Hv) as [self' [Hset [Hget Hreg]]].
    exists self'. split; [|exact Hreg].
    unfold bind at 1. rewrite Hset. unfold resolution, bind. rewrite Hget.
    simpl in Hin.
    repeat (destruct Hin as [[= <- <-]|Hin]; [reflexivity|]). contradiction.
  - assert (Hv : In value full_scale_values).
    { rewrite <- (proj2 (proj2 names_cover_the_enumerations)).
      exact (in_names_in_values _ _ _ Hin). }
    destruct (full_scale_set_then_get value self Hd Hv) as [Hset [Hget Hfs]].
    eexists. split; [|exact Hfs].
    unfold bind at 1. rewrite Hset. unfold full_scale, bind. rewrite Hget.
    simpl in Hin.
    repeat (destruct Hin as [[= <- <-]|Hin]; [reflexivity|]). contradiction.
Qed.

Lemma resolution_and_full_scale_round_trip_by_name_witness :
  (exists self',
     (set_resolution RES_128 ;;; resolution) lps_at_reset = (Return "RES_128", self') /\
     avg_field (reg_byte (regs (i2c_device self')) _REG_CTRL_REG1) = RES_128) /\
  (exists self',
     (set_full_scale FULL_SCALE ;;; full_scale) lps_at_reset
       = (Return "FULL_SCALE", self') /\
     fs_mode (i2c_device self') = (FULL_SCALE =? 1)).
Proof.
  split.
  - apply (proj1 (resolution_and_full_scale_round_trip_by_name
                    lps_at_reset RES_128 "RES_128" eq_refl)).
    simpl. do 5 right. left. reflexivity.
  - apply (proj2 (resolution_and_full_scale_round_trip_by_name
                    lps_at_reset FULL_SCALE "FULL_SCALE" eq_refl)).
    simpl. right. left. reflexivity.
Defined.

(** C4, as stated, fails: after setting resolution to RES_16 the getter
    returns the string "RES_16", after setting full_scale to FULL_SCALE
    it returns the string "FULL_SCALE", neither being the value set; and
    after setting resolution to RES_512 the getter returns nothing. *)
Lemma resolution_and_full_scale_get_is_not_the_value_set :
  ~ returns_same_value RES_16
      (fst ((set_resolution RES_16 ;;; resolution) lps_at_reset)) /\
  ~ returns_same_value FULL_SCALE
      (fst ((set_full_scale FULL_SCALE ;;; full_scale) lps_at_reset)) /\
  ~ returns_same_value RES_512
      (fst ((set_resolution RES_512 ;;; resolution) lps_at_reset)).
Proof.
  repeat split; intros [s [Hs Heq]]; vm_compute in Hs.
  - injection Hs as <-. vm_compute in Heq. discriminate.
  - injection Hs as <-. vm_compute in Heq. discriminate.
  - discriminate.
Qed.

(** C9: the setter accepts RES_512, and the getter then indexes its
    seven-entry table with 7: the lookup is out of bounds and raises
    IndexError, on every device. *)
Theorem resolution_get_faults_after_RES_512 (self : LPS28) :
  reliable (i2c_device self) ->
  In RES_512 resolution_values /\
  exists self',
    set_resolution RES_512 self = (Return tt, self') /\
    on_bus (Bits_get _reg_resolution) self' = (Return 7, self') /\
    resolution self' = (Raise IndexError, self').
Proof.
  intros Hd.
  assert (Hin : In RES_512 resolution_values) by (simpl; tauto).
  split; [exact Hin|].
  destruct (resolution_set_then_get RES_512 self Hd Hin) as [self' [Hset [Hget _]]].
  exists self'. split; [exact Hset|]. split; [exact Hget|].
  unfold resolution, bind. rewrite Hget. reflexivity.
Qed.

Lemma resolution_get_faults_after_RES_512_witness :
  In RES_512 resolution_values /\
  exists self',
    set_resolution RES_512 lps_at_reset = (Return tt, self') /\
    on_bus (Bits_get _reg_resolution) self' = (Return 7, self') /\
    resolution self' = (Raise IndexError, self').
Proof. exact (resolution_get_faults_after_RES_512 lps_at_reset eq_refl). Defined.

(** ** The pressure threshold *)

Lemma threshold_get_reliable (d : I2CDevice) :
  reliable d -> Struct_get _reg_pressure_threshold d = (Return (ths_p d), d).
Proof.
  intros Hd. rewrite Struct_get_reliable by assumption. do 2 f_equal.
  change (format _reg_pressure_threshold) with fmt_H.
  change (struct_address _reg_pressure_threshold) with _REG_THS_P_L.
  unfold calcsize, read_bytes, unpack.
  pose proof (reg_byte_range (regs d) _REG_THS_P_L) as HL.
  pose proof (reg_byte_range (regs d) (_REG_THS_P_L + 1)) as HH.
  rewrite !le_int_cons by assumption. change (le_int []) with 0.
  change (_REG_THS_P_L + 1) with _REG_THS_P_H in *.
  unfold ths_p. now rewrite Z.mul_0_r, Z.add_0_r.
Qed.

Lemma full_scale_bit_reliable (self : LPS28) :
  reliable (i2c_device self) ->
  on_bus (Bit_get _reg_full_scale) self = (Return (fs_mode (i2c_device self)), self).
Proof.
  intros Hd. apply on_bus_returns.
  rewrite Bit_get_reliable by (reflexivity || exact Hd).
  now rewrite fs_mode_read.
Qed.

(** The getter divides THS_P by the divisor of the mode the device is in
    when the getter runs. *)
Lemma pressure_threshold_reliable (self : LPS28) :
  reliable (i2c_device self) ->
  pressure_threshold self =
    (Return (Qred (inject_Z (ths_p (i2c_device self))
                   / inject_Z (if fs_mode (i2c_device self) then 8 else 16))),
     self).
Proof.
  intros Hd. unfold pressure_threshold, bind.
  rewrite (on_bus_returns _ _ _ (threshold_get_reliable _ Hd)).
  rewrite full_scale_bit_reliable by assumption.
  destruct (fs_mode (i2c_device self)); reflexivity.
Qed.

Lemma set_pressure_threshold_reliable (value : Q) (self : LPS28) :
  reliable (i2c_device self) ->
  let factor := if fs_mode (i2c_device self) then 8 else 16 in
  set_pressure_threshold value self =
    (Return tt,
     mkLPS28 (wrote _REG_THS_P_L
                    (pack fmt_H (Qred (value * inject_Z factor)))
                    (i2c_device self))
             (_pressure_scale self)).
Proof.
  intros Hd factor. unfold set_pressure_threshold, bind.
  rewrite full_scale_bit_reliable by assumption. subst factor.
  destruct (fs_mode (i2c_device self)); cbv beta iota;
    unfold lift_outcome, py_index; simpl;
    unfold on_bus; now rewrite Struct_set_reliable.
Qed.

Lemma ths_p_written (b0 b1 : Z) (d : I2CDevice) :
  ths_p (wrote _REG_THS_P_L [b0; b1] d) = Z.land b0 255 + 256 * Z.land b1 255.
Proof.
  unfold ths_p, wrote. cbn [regs].
  destruct (reg_byte_store_2 (regs d) _REG_THS_P_L b0 b1) as [-> H1].
  change (_REG_THS_P_L + 1) with _REG_THS_P_H in H1. now rewrite H1.
Qed.

Lemma ths_p_kept (a : Z) (b : Z) (d : I2CDevice) :
  a = _REG_CTRL_REG1 \/ a = _REG_CTRL_REG2 ->
  ths_p (wrote a [b] d) = ths_p d.
Proof.
  intros Ha. unfold ths_p, wrote. cbn [regs].
  rewrite !reg_byte_store_outside; [reflexivity| |];
    destruct Ha as [->| ->]; simpl; unfold _REG_THS_P_L, _REG_THS_P_H,
      _REG_CTRL_REG1, _REG_CTRL_REG2; lia.
Qed.

Lemma fs_mode_kept_by_threshold (bs : list Z) (d : I2CDevice) :
  length bs = 2%nat -> fs_mode (wrote _REG_THS_P_L bs d) = fs_mode d.
Proof.
  intros Hlen. unfold fs_mode, wrote. cbn [regs].
  rewrite reg_byte_store_outside; [reflexivity|].
  rewrite Hlen. unfold _REG_THS_P_L, _REG_CTRL_REG2. simpl. lia.
Qed.


(** ** The full-scale setter on any transport *)

Lemma py_in_inv (value : Z) (t : list Z) : py_in value t = true -> In value t.
Proof.
  unfold py_in. intros H. apply existsb_exists in H as [x [Hx E]].
  apply Z.eqb_eq in E. now subst.
Qed.

(** For a valid value the cache is assigned first; then the bit write
    reads CTRL_REG2, which may fail, and writes it back, which may fail. *)
Lemma set_full_scale_valid (value : Z) (self : LPS28) :
  In value full_scale_values ->
  let d := i2c_device self in
  let scale := if value =? 1 then 2048 else 4096 in
  set_full_scale value self =
    if hd false (faults d) then (Raise OSError, mkLPS28 (advance d) scale)
    else if hd false (faults (advance d))
         then (Raise OSError, mkLPS28 (advance (advance d)) scale)
         else (Return tt,
               mkLPS28 (wrote _REG_CTRL_REG2
                              [bit_update _reg_full_scale
                                 (reg_byte (regs d) _REG_CTRL_REG2) (value =? 1)]
                              (advance (advance d)))
                       scale).
Proof.
  intros Hin d scale.
  assert (E : set_full_scale value self =
              on_bus (Bit_set _reg_full_scale (value =? 1))
                     (mkLPS28 (i2c_device self) scale))
    by (destruct Hin as [<-|[<-|[]]]; reflexivity).
  rewrite E. unfold on_bus. cbn [i2c_device _pressure_scale]. fold d.
  rewrite Bit_set_eq by reflexivity.
  destruct (hd false (faults d)); [reflexivity|].
  destruct (hd false (faults (advance d))); reflexivity.
Qed.

Lemma set_full_scale_outcomes (value : Z) (self self' : LPS28) (o : outcome unit) :
  set_full_scale value self = (o, self') ->
  (~ In value full_scale_values /\ self' = self /\
   o = Raise (ValueError "Value must be a valid scale setting")) \/
  (In value full_scale_values /\ o = Raise OSError /\
   _pressure_scale self' = (if value =? 1 then 2048 else 4096) /\
   regs (i2c_device self') = regs (i2c_device self) /\
   writes (i2c_device self') = writes (i2c_device self)) \/
  (In value full_scale_values /\ o = Return tt /\
   _pressure_scale self' = (if value =? 1 then 2048 else 4096) /\
   fs_mode (i2c_device self') = (value =? 1) /\
   exists b, writes (i2c_device self')
             = writes (i2c_device self) ++ [(_REG_CTRL_REG2, [b])]).
Proof.
  intros H. destruct (py_in value full_scale_values) eqn:Hin.
  - apply py_in_inv in Hin. right.
    rewrite (set_full_scale_valid value self Hin) in H. cbv zeta in H.
    destruct (hd false (faults (i2c_device self)));
      [|destruct (hd false (faults (advance (i2c_device self))))];
      injection H as <- <-.
    + left. repeat split; assumption || reflexivity.
    + left. repeat split; assumption || reflexivity.
    + right. cbn [i2c_device _pressure_scale].
      repeat split; try assumption; try reflexivity.
      * apply fs_mode_written.
      * eexists. reflexivity.
  - left. unfold set_full_scale in H. rewrite Hin in H. injection H as <- <-.
    repeat split. intros Hv. apply py_in_true in Hv. congruence.
Qed.

(** C10, as the code has it: when a full_scale set fails with a
    transport error, the device registers are as before and nothing was
    written, but the cached pressure scale has already been assigned the
    scale of the requested mode; and a failing read or a failing write of
    CTRL_REG2 does fail the set in this way. *)
Theorem full_scale_cache_assigned_before_bus_write (value : Z) (self : LPS28) :
  In value full_scale_values ->
  (forall self',
      set_full_scale value self = (Raise OSError, self') ->
      _pressure_scale self' = (if value =? 1 then 2048 else 4096) /\
      regs (i2c_device self') = regs (i2c_device self) /\
      writes (i2c_device self') = writes (i2c_device self)) /\
  (hd false (faults (i2c_device self)) = true \/
   hd false (tail (faults (i2c_device self))) = true ->
   exists self', set_full_scale value self = (Raise OSError, self')).
Proof.
  intros Hin. split.
  - intros self' H.
    destruct (set_full_scale_outcomes _ _ _ _ H)
      as [[_ [_ Ho]]|[[_ [_ Hrest]]|[_ [Ho _]]]];
      [discriminate|exact Hrest|discriminate].
  - intros Hfault. rewrite (set_full_scale_valid value self Hin). cbv zeta.
    destruct (hd false (faults (i2c_device self))) eqn:E1; [eexists; reflexivity|].
    destruct Hfault as [Hf|Hf]; [discriminate|].
    change (faults (advance (i2c_device self)))
      with (tail (faults (i2c_device self))).
    rewrite Hf. eexists; reflexivity.
Qed.

Lemma full_scale_cache_assigned_before_bus_write_witness :
  _pressure_scale (snd (set_full_scale FULL_SCALE lps_write_fails)) = 2048 /\
  regs (i2c_device (snd (set_full_scale FULL_SCALE lps_write_fails)))
    = regs (i2c_device lps_write_fails) /\
  writes (i2c_device (snd (set_full_scale FULL_SCALE lps_write_fails)))
    = writes (i2c_device lps_write_fails).
Proof.
  assert (Hin : In FULL_SCALE full_scale_values) by (simpl; tauto).
  apply (proj1 (full_scale_cache_assigned_before_bus_write
                  FULL_SCALE lps_write_fails Hin)).
  reflexivity.
Defined.

(** C10, as stated, fails: with a transport whose read of CTRL_REG2 is
    answered and whose write fails, setting full_scale to FULL_SCALE on an
    instance whose cached scale is 4096 raises the transport error,
    writes nothing, and leaves the cached scale at 2048. *)
Lemma full_scale_failed_write_changes_the_cache :
  exists self',
    set_full_scale FULL_SCALE lps_write_fails = (Raise OSError, self') /\
    writes (i2c_device self') = [] /\
    fs_mode (i2c_device self') = false /\
    _pressure_scale lps_write_fails = 4096 /\
    _pressure_scale self' = 2048 /\
    _pressure_scale self' <> _pressure_scale lps_write_fails.
Proof.
  eexists. split; [vm_compute; reflexivity|].
  repeat split; try reflexivity. cbn [_pressure_scale]. discriminate.
Qed.

(** ** The pressure-scale invariant *)

Ltac addr_apart :=
  solve [ left; reflexivity
        | right; cbv; discriminate ].

Ltac keeps_step :=
  match goal with
  | |- keeps_scale_and_reg _ (bind _ _) => apply keeps_self_bind; [|intros ?]
  | |- keeps_scale_and_reg _ (if ?b then _ else _) => destruct b
  | |- keeps_scale_and_reg _ (on_bus _) => apply keeps_on_bus
  | |- keeps_scale_and_reg _ (lift_outcome _) => apply keeps_lift_outcome
  | |- keeps_scale_and_reg _ (ret _) => apply keeps_self_ret
  | |- keeps_scale_and_reg _ (raise _) => apply keeps_self_raise
  | |- keeps_scale_and_reg _ get_state => apply keeps_get_state
  | |- keeps_reg _ (Bits_get _) => apply keeps_reg_Bits_get
  | |- keeps_reg _ (Bit_get _) => apply keeps_reg_Bit_get
  | |- keeps_reg _ (Struct_get _) => apply keeps_reg_Struct_get
  | |- keeps_reg _ (Bits_set _ _) => apply keeps_reg_Bits_set; addr_apart
  | |- keeps_reg _ (Bit_set _ _) => apply keeps_reg_Bit_set; addr_apart
  | |- keeps_reg _ (Struct_set _ _) => apply keeps_reg_Struct_set; addr_apart
  end.

(** Every call but the full-scale setter leaves CTRL_REG2 and the cached
    scale as they were, however it ends. *)
Lemma perform_keeps_full_scale (c : call) :
  (forall value, c <> SetFullScale value) ->
  keeps_scale_and_reg _REG_CTRL_REG2 (perform c).
Proof.
  intros Hc.
  destruct c; try (exfalso; eapply Hc; reflexivity);
    unfold perform, returning, data_rate, set_data_rate, resolution,
      set_resolution, full_scale, pressure, temperature,
      high_threshold_enabled, set_high_threshold_enabled,
      low_threshold_enabled, set_low_threshold_enabled,
      high_threshold_exceeded, low_threshold_exceeded,
      pressure_threshold, set_pressure_threshold;
    repeat keeps_step.
Qed.

Lemma kept_invariant (self self' : LPS28) :
  _pressure_scale self' = _pressure_scale self ->
  regs (i2c_device self') !! _REG_CTRL_REG2
    = regs (i2c_device self) !! _REG_CTRL_REG2 ->
  scale_invariant self -> scale_invariant self'.
Proof.
  intros Hs Hr. rewrite !scale_invariant_iff.
  rewrite Hs, (fs_mode_same_reg _ _ Hr). trivial.
Qed.

Lemma written_invariant (value : Z) (self' : LPS28) :
  _pressure_scale self' = (if value =? 1 then 2048 else 4096) ->
  fs_mode (i2c_device self') = (value =? 1) ->
  scale_invariant self'.
Proof.
  intros Hs Hf. apply scale_invariant_iff. rewrite Hs, Hf. reflexivity.
Qed.

Lemma init_returns (i2c d : I2CDevice) (self : LPS28) :
  __init__ i2c = (Return self, d) ->
  self = mkLPS28 d 4096 /\
  regs d !! _REG_CTRL_REG2 = regs i2c !! _REG_CTRL_REG2.
Proof.
  unfold __init__, bind.
  destruct (Struct_get _reg_device_id i2c) as [[id|e] d0] eqn:Eid;
    [|discriminate].
  pose proof (keeps_reg_Struct_get _REG_CTRL_REG2 _ _ _ _ Eid) as H0.
  destruct (negb (id =? 0xB4)); [discriminate|].
  destruct (Bits_set _reg_data_rate RATE_10_HZ d0) as [[u|e] d1] eqn:Eset;
    [|discriminate].
  assert (Hapart : _REG_CTRL_REG2 < bits_address _reg_data_rate \/
                   bits_address _reg_data_rate
                   + Z.of_nat (bits_width _reg_data_rate) <= _REG_CTRL_REG2)
    by addr_apart.
  pose proof (keeps_reg_Bits_set _REG_CTRL_REG2 _ _ Hapart _ _ _ Eset) as H1.
  intros [= <- <-]. split; [reflexivity|congruence].
Qed.

(** C1, as the code has it.  Every successful full_scale set with a
    valid value updates the cached scale (4096 for 0, 2048 for 1) and
    bit 6 of CTRL_REG2 in that one operation, with a single register
    write, and so establishes the invariant.  Construction initialises
    the scale to 4096 and does not touch CTRL_REG2: it succeeds on a
    sensor that answers with identity 0xB4, and the invariant holds after
    it when the device's full-scale bit is 0.  Every call of the
    interface keeps the invariant however it ends, returning or raising,
    but for a full_scale set that raises the transport's error. *)
Theorem scale_invariant_maintained :
  (forall (value : Z) (self : LPS28),
      In value full_scale_values -> reliable (i2c_device self) ->
      exists self' b,
        set_full_scale value self = (Return tt, self') /\
        _pressure_scale self' = (if value =? 1 then 2048 else 4096) /\
        fs_mode (i2c_device self') = (value =? 1) /\
        writes (i2c_device self')
          = writes (i2c_device self) ++ [(_REG_CTRL_REG2, [b])] /\
        scale_invariant self') /\
  (forall i2c : I2CDevice,
      reliable i2c -> reg_byte (regs i2c) _REG_WHOAMI = 0xB4 ->
      exists self, __init__ i2c = (Return self, i2c_device self)) /\
  (forall (i2c d : I2CDevice) (self : LPS28),
      __init__ i2c = (Return self, d) ->
      _pressure_scale self = 4096 /\
      fs_mode (i2c_device self) = fs_mode i2c /\
      (fs_mode i2c = false -> scale_invariant self)) /\
  (forall (c : call) (self self' : LPS28) (o : outcome pyobj),
      scale_invariant self ->
      perform c self = (o, self') ->
      (forall value, c = SetFullScale value -> o <> Raise OSError) ->
      scale_invariant self').
Proof.
  split; [|split; [|split]].
  - intros value self Hin Hd.
    destruct (full_scale_set_then_get value self Hd Hin) as [Hset [_ Hfs]].
    eexists. eexists. split; [exact Hset|]. cbn [_pressure_scale i2c_device].
    split; [reflexivity|]. split; [exact Hfs|]. split; [reflexivity|].
    now apply (written_invariant value).
  - intros i2c Hd Hid.
    pose proof (init_right_identity i2c Hd Hid) as H. cbv zeta in H.
    eexists (mkLPS28 _ 4096). exact H.
  - intros i2c d self H. apply init_returns in H as [-> Hreg].
    cbn [_pressure_scale i2c_device].
    split; [reflexivity|]. split; [exact (fs_mode_same_reg _ _ Hreg)|].
    intros Hbit. apply scale_invariant_iff. cbn [_pressure_scale i2c_device].
    now rewrite (fs_mode_same_reg _ _ Hreg), Hbit.
  - intros c self self' o Hinv H Hexcept.
    assert (Hc : (exists value, c = SetFullScale value) \/
                 (forall value, c <> SetFullScale value))
      by (destruct c; (left; eexists; reflexivity) || (right; intros; discriminate)).
    destruct Hc as [[value ->]|Hc].
    2:{ destruct (perform_keeps_full_scale c Hc _ _ _ H) as [Hs Hr].
        exact (kept_invariant _ _ Hs Hr Hinv). }
    specialize (Hexcept value eq_refl).
    unfold perform, returning, bind in H.
    destruct (set_full_scale value self) as [[u|e] s1] eqn:E;
      injection H as <- <-;
      destruct (set_full_scale_outcomes _ _ _ _ E)
        as [[_ [-> _]]|[[_ [Ho _]]|[_ [Ho [Hs [Hf _]]]]]];
      try exact Hinv; try discriminate.
    + exact (written_invariant value _ Hs Hf).
    + injection Ho as ->. now contradiction Hexcept.
Qed.

Lemma scale_invariant_maintained_witness :
  (exists self' b,
      set_full_scale FULL_SCALE lps_at_reset = (Return tt, self') /\
      _pressure_scale self' = 2048 /\
      fs_mode (i2c_device self') = true /\
      writes (i2c_device self') = [(_REG_CTRL_REG2, [b])] /\
      scale_invariant self') /\
  (exists self, __init__ sensor_at_reset = (Return self, i2c_device self)) /\
  scale_invariant (mkLPS28 (snd (__init__ sensor_at_reset)) 4096) /\
  scale_invariant (snd (perform (SetDataRate RATE_1_HZ) lps_at_reset)) /\
  scale_invariant (snd (perform (SetDataRate RATE_1_HZ) lps_write_fails)) /\
  scale_invariant (snd (perform (SetFullScale 2) lps_at_reset)).
Proof.
  destruct scale_invariant_maintained as [Hset [Hnew [Hinit Hcall]]].
  assert (Hin : In FULL_SCALE full_scale_values) by (simpl; tauto).
  assert (Hreset : scale_invariant lps_at_reset)
    by (apply scale_invariant_iff; reflexivity).
  assert (Hfails : scale_invariant lps_write_fails)
    by (apply scale_invariant_iff; reflexivity).
  split; [|split; [|split; [|split; [|split]]]].
  - exact (Hset FULL_SCALE lps_at_reset Hin eq_refl).
  - exact (Hnew sensor_at_reset eq_refl eq_refl).
  - exact (proj2 (proj2 (Hinit sensor_at_reset (snd (__init__ sensor_at_reset))
                           (mkLPS28 (snd (__init__ sensor_at_reset)) 4096)
                           eq_refl)) eq_refl).
  - apply (Hcall (SetDataRate RATE_1_HZ) lps_at_reset _
             (Return (PBool false)) Hreset eq_refl).
    intros value Hc. discriminate.
  - apply (Hcall (SetDataRate RATE_1_HZ) lps_write_fails _
             (Raise OSError) Hfails eq_refl).
    intros value Hc. discriminate.
  - apply (Hcall (SetFullScale 2) lps_at_reset _
             (Raise (ValueError "Value must be a valid scale setting"))
             Hreset eq_refl).
    intros value Hc. discriminate.
Defined.

(** C1, as stated, fails.  A sensor left in full-scale mode is
    constructed with scale 4096 while its full-scale bit is 1; and a
    full_scale set whose bus write fails leaves scale 2048 with the bit
    still 0, from an instance on which the invariant held. *)
Lemma scale_invariant_broken :
  (exists self,
      __init__ sensor_in_full_scale = (Return self, i2c_device self) /\
      _pressure_scale self = 4096 /\
      fs_mode (i2c_device self) = true /\
      ~ scale_invariant self) /\
  (exists self',
      scale_invariant lps_write_fails /\
      set_full_scale FULL_SCALE lps_write_fails = (Raise OSError, self') /\
      ~ scale_invariant self').
Proof.
  split.
  - exists (mkLPS28 (snd (__init__ sensor_in_full_scale)) 4096).
    split; [vm_compute; reflexivity|].
    split; [reflexivity|]. split; [reflexivity|].
    intros [H _]. cbn [_pressure_scale] in H.
    assert (E : true = false) by (apply H; reflexivity). discriminate.
  - eexists. split; [apply scale_invariant_iff; reflexivity|].
    split; [vm_compute; reflexivity|].
    intros [_ H]. cbn [_pressure_scale] in H.
    assert (E : false = true) by (apply H; reflexivity). discriminate.
Qed.

(** * Further properties of the driver *)

(** ** The sign decode at any width *)

(** X1: for a width of at least one bit and a raw value that fits it,
    [_twos_comp] returns the signed reading: the result lies in
    [-2^(bits-1), 2^(bits-1)), agrees with the raw value modulo 2^bits,
    is the raw value itself below 2^(bits-1) and the raw value minus
    2^bits from there on. *)
Theorem twos_comp_is_the_signed_reading (val bits : Z) :
  1 <= bits -> 0 <= val < 2 ^ bits ->
  - 2 ^ (bits - 1) <= _twos_comp val bits < 2 ^ (bits - 1) /\
  (_twos_comp val bits) mod 2 ^ bits = val /\
  (val < 2 ^ (bits - 1) -> _twos_comp val bits = val) /\
  (2 ^ (bits - 1) <= val -> _twos_comp val bits = val - 2 ^ bits).
Proof.
  intros Hbits Hval.
  assert (Hhalf : 2 ^ bits = 2 * 2 ^ (bits - 1)).
  { replace bits with (bits - 1 + 1) at 1 by lia.
    rewrite Z.pow_add_r by lia. change (2 ^ 1) with 2. lia. }
  assert (Hpos : 0 < 2 ^ (bits - 1)) by (apply Z.pow_pos_nonneg; lia).
  unfold _twos_comp. rewrite mask_test_testbit by lia.
  rewrite (testbit_top val (bits - 1)) by (replace (bits - 1 + 1) with bits; lia).
  rewrite Z.shiftl_1_l.
  destruct (Z.leb_spec (2 ^ (bits - 1)) val) as [Hhigh|Hlow].
  - repeat split; try lia.
    replace (val - 2 ^ bits) with (val + (-1) * 2 ^ bits) by lia.
    rewrite Z.mod_add by lia. apply Z.mod_small. lia.
  - repeat split; try lia. apply Z.mod_small. lia.
Qed.

Lemma twos_comp_is_the_signed_reading_witness :
  - 2 ^ (16 - 1) <= _twos_comp 0xFF9C 16 < 2 ^ (16 - 1) /\
  (_twos_comp 0xFF9C 16) mod 2 ^ 16 = 0xFF9C /\
  (0xFF9C < 2 ^ (16 - 1) -> _twos_comp 0xFF9C 16 = 0xFF9C) /\
  (2 ^ (16 - 1) <= 0xFF9C -> _twos_comp 0xFF9C 16 = 0xFF9C - 2 ^ 16).
Proof.
  apply (twos_comp_is_the_signed_reading 0xFF9C 16); [lia|].
  change (2 ^ 16) with 65536. lia.
Defined.

(** ** The range and the scale of the pressure read *)

Lemma press_out_range (d : I2CDevice) : 0 <= press_out d < 2 ^ 24.
Proof.
  unfold press_out.
  pose proof (reg_byte_range (regs d) _REG_PRESS_OUT_XL).
  pose proof (reg_byte_range (regs d) _REG_PRESS_OUT_L).
  pose proof (reg_byte_range (regs d) _REG_PRESS_OUT_H).
  change (2 ^ 24) with 16777216. lia.
Qed.

Lemma quotient_bounds (t s : Z) :
  0 < s ->
  (inject_Z (- (8388608 / s)) <= Qred (inject_Z t / inject_Z s))%Q <->
  - (8388608 / s) * s <= t.
Proof.
  intros Hs. rewrite Qred_correct.
  destruct s as [|p|p]; try lia.
  unfold Qle, Qdiv, Qmult, Qinv, inject_Z. simpl Qnum. simpl Qden.
  rewrite Pos.mul_1_l. generalize (8388608 / Z.pos p). intros x. lia.
Qed.

Lemma quotient_bounds_above (t s : Z) :
  0 < s ->
  (Qred (inject_Z t / inject_Z s) < inject_Z (8388608 / s))%Q <->
  t < (8388608 / s) * s.
Proof.
  intros Hs. rewrite Qred_correct.
  destruct s as [|p|p]; try lia.
  unfold Qlt, Qdiv, Qmult, Qinv, inject_Z. simpl Qnum. simpl Qden.
  rewrite Pos.mul_1_l. generalize (8388608 / Z.pos p). intros x. lia.
Qed.

Lemma pressure_range_by_scale (self : LPS28) :
  reliable (i2c_device self) -> valid_scale self ->
  exists p,
    pressure self = (Return p, self) /\
    (inject_Z (- (8388608 / _pressure_scale self)) <= p)%Q /\
    (p < inject_Z (8388608 / _pressure_scale self))%Q.
Proof.
  intros Hd Hs.
  assert (Hpos : 0 < _pressure_scale self) by (destruct Hs as [-> | ->]; lia).
  eexists. split; [apply pressure_reliable; [assumption|lia]|].
  pose proof (_twos_comp_signed _ (press_out_range (i2c_device self))) as [Hr _].
  change (2 ^ 23) with 8388608 in Hr.
  split.
  - apply quotient_bounds; [assumption|].
    destruct Hs as [-> | ->];
      [change (8388608 / 4096) with 2048|change (8388608 / 2048) with 4096]; lia.
  - apply quotient_bounds_above; [assumption|].
    destruct Hs as [-> | ->];
      [change (8388608 / 4096) with 2048|change (8388608 / 2048) with 4096]; lia.
Qed.

(** X2: on a transport that answers, the pressure read returns a value
    of at least -2048 and below 2048 hPa when the cached scale is 4096,
    and of at least -4096 and below 4096 hPa when it is 2048. *)
Theorem pressure_stays_in_range (self : LPS28) :
  reliable (i2c_device self) ->
  (_pressure_scale self = 4096 ->
   exists p, pressure self = (Return p, self) /\ (-2048 <= p)%Q /\ (p < 2048)%Q) /\
  (_pressure_scale self = 2048 ->
   exists p, pressure self = (Return p, self) /\ (-4096 <= p)%Q /\ (p < 4096)%Q).
Proof.
  intros Hd. split; intros Hs.
  - destruct (pressure_range_by_scale self Hd (or_introl Hs)) as [p [Hp Hrange]].
    rewrite Hs in Hrange. exists p. split; [exact Hp|exact Hrange].
  - destruct (pressure_range_by_scale self Hd (or_intror Hs)) as [p [Hp Hrange]].
    rewrite Hs in Hrange. exists p. split; [exact Hp|exact Hrange].
Qed.

Lemma pressure_stays_in_range_witness :
  exists p,
    pressure (mkLPS28 sensor_sample 4096) = (Return p, mkLPS28 sensor_sample 4096) /\
    (-2048 <= p)%Q /\ (p < 2048)%Q.
Proof.
  exact (proj1 (pressure_stays_in_range (mkLPS28 sensor_sample 4096) eq_refl)
           eq_refl).
Defined.

(** ** What is written, and when *)

Lemma same_device_refl (d : I2CDevice) : same_device d d.
Proof. split; reflexivity. Qed.

Lemma same_device_trans (d1 d2 d3 : I2CDevice) :
  same_device d1 d2 -> same_device d2 d3 -> same_device d1 d3.
Proof. intros [H1 H2] [H3 H4]. split; congruence. Qed.

Lemma same_device_advance (d : I2CDevice) : same_device d (advance d).
Proof. split; reflexivity. Qed.

Lemma read_only_read (a : Z) (n : nat) : read_only (write_then_readinto a n).
Proof.
  intros d o d'. rewrite write_then_readinto_eq.
  destruct (hd false (faults d)); intros [= <- <-]; apply same_device_advance.
Qed.

Lemma fails_clean_write (a : Z) (bs : list Z) : fails_clean (i2c_write a bs).
Proof.
  intros d e d'. rewrite i2c_write_eq.
  destruct (hd false (faults d)); [|discriminate].
  intros [= <- <-]. apply same_device_advance.
Qed.

Lemma read_only_ret {A} (a : A) : read_only (@ret I2CDevice A a).
Proof. intros d o d' [= <- <-]. apply same_device_refl. Qed.

Lemma read_only_raise {A} (e : exn) : read_only (@raise I2CDevice A e).
Proof. intros d o d' [= <- <-]. apply same_device_refl. Qed.

Lemma read_only_bind {A B} (m : M I2CDevice A) (k : A -> M I2CDevice B) :
  read_only m -> (forall a, read_only (k a)) -> read_only (bind m k).
Proof.
  intros Hm Hk d o d'. unfold bind.
  destruct (m d) as [[a|e] d1] eqn:E; intros H.
  - exact (same_device_trans _ _ _ (Hm _ _ _ E) (Hk a _ _ _ H)).
  - injection H as <- <-. exact (Hm _ _ _ E).
Qed.

Lemma read_only_fails_clean {A} (m : M I2CDevice A) : read_only m -> fails_clean m.
Proof. intros Hm d e d' H. exact (Hm _ _ _ H). Qed.

Lemma fails_clean_bind {A B} (m : M I2CDevice A) (k : A -> M I2CDevice B) :
  read_only m -> (forall a, fails_clean (k a)) -> fails_clean (bind m k).
Proof.
  intros Hm Hk d e d'. unfold bind.
  destruct (m d) as [[a|e1] d1] eqn:E; intros H.
  - exact (same_device_trans _ _ _ (Hm _ _ _ E) (Hk a _ _ _ H)).
  - injection H as <- <-. exact (Hm _ _ _ E).
Qed.

Lemma read_only_Bits_get (f : Bits) : read_only (Bits_get f).
Proof.
  apply read_only_bind; [apply read_only_read|]. intros buf. apply read_only_ret.
Qed.

Lemma read_only_Bit_get (f : Bit) : read_only (Bit_get f).
Proof.
  apply read_only_bind; [apply read_only_read|]. intros buf.
  destruct (buf !! bit_byte f); [apply read_only_ret|apply read_only_raise].
Qed.

Lemma read_only_Struct_get (f : Struct) : read_only (Struct_get f).
Proof.
  apply read_only_bind; [apply read_only_read|]. intros buf. apply read_only_ret.
Qed.

Lemma fails_clean_Bits_set (f : Bits) (value : Z) : fails_clean (Bits_set f value).
Proof.
  apply fails_clean_bind; [apply read_only_read|]. intros buf.
  apply fails_clean_write.
Qed.

Lemma fails_clean_Bit_set (f : Bit) (value : bool) : fails_clean (Bit_set f value).
Proof.
  apply fails_clean_bind; [apply read_only_read|]. intros buf.
  destruct (buf !! bit_byte f);
    [apply fails_clean_write|apply read_only_fails_clean, read_only_raise].
Qed.

Lemma fails_clean_Struct_set (f : Struct) (value : Q) :
  fails_clean (Struct_set f value).
Proof. apply fails_clean_write. Qed.

(** The transport raises nothing but its own error. *)
Lemma read_raises_OSError (a : Z) (n : nat) (d d' : I2CDevice) (e : exn) :
  write_then_readinto a n d = (Raise e, d') -> e = OSError.
Proof.
  rewrite write_then_readinto_eq.
  destruct (hd false (faults d)); [|discriminate]. now intros [= <- _].
Qed.

Lemma Bits_get_raises_OSError (f : Bits) (d d' : I2CDevice) (e : exn) :
  Bits_get f d = (Raise e, d') -> e = OSError.
Proof.
  unfold Bits_get, bind.
  destruct (write_then_readinto _ _ d) as [[buf|e1] d1] eqn:E; [discriminate|].
  intros [= <- _]. exact (read_raises_OSError _ _ _ _ _ E).
Qed.

(** Through [self]. *)
Lemma method_read_only_on_bus {A} (m : M I2CDevice A) :
  read_only m -> method_read_only (on_bus m).
Proof.
  intros Hm self o self'. unfold on_bus.
  destruct (m (i2c_device self)) as [o1 d1] eqn:E. intros [= <- <-].
  split; [exact (Hm _ _ _ E)|reflexivity].
Qed.

Lemma method_fails_clean_on_bus {A} (m : M I2CDevice A) :
  fails_clean m -> method_fails_clean (on_bus m).
Proof.
  intros Hm self e self'. unfold on_bus.
  destruct (m (i2c_device self)) as [o1 d1] eqn:E. intros [= -> <-].
  exact (Hm _ _ _ E).
Qed.

Lemma method_read_only_lift {A} (o : outcome A) : method_read_only (lift_outcome o).
Proof. intros self o' self' [= <- <-]. split; [apply same_device_refl|reflexivity]. Qed.

Lemma method_read_only_ret {A} (a : A) : method_read_only (@ret LPS28 A a).
Proof. intros self o' self' [= <- <-]. split; [apply same_device_refl|reflexivity]. Qed.

Lemma method_read_only_raise {A} (e : exn) : method_read_only (@raise LPS28 A e).
Proof. intros self o' self' [= <- <-]. split; [apply same_device_refl|reflexivity]. Qed.

Lemma method_read_only_get_state : method_read_only (@get_state LPS28).
Proof. intros self o' self' [= <- <-]. split; [apply same_device_refl|reflexivity]. Qed.

Lemma method_read_only_bind {A B} (m : M LPS28 A) (k : A -> M LPS28 B) :
  method_read_only m -> (forall a, method_read_only (k a)) ->
  method_read_only (bind m k).
Proof.
  intros Hm Hk self o self'. unfold bind.
  destruct (m self) as [[a|e] s1] eqn:E; intros H.
  - destruct (Hm _ _ _ E) as [Hd Hs]. destruct (Hk a _ _ _ H) as [Hd' Hs'].
    split; [exact (same_device_trans _ _ _ Hd Hd')|congruence].
  - injection H as <- <-. exact (Hm _ _ _ E).
Qed.

Lemma method_read_only_keeps_device {A} (m : M LPS28 A) :
  method_read_only m -> method_keeps_device m.
Proof. intros Hm self o self' H. exact (proj1 (Hm _ _ _ H)). Qed.

Lemma method_keeps_device_fails_clean {A} (m : M LPS28 A) :
  method_keeps_device m -> method_fails_clean m.
Proof. intros Hm self e self' H. exact (Hm _ _ _ H). Qed.

Lemma method_keeps_device_set_scale (scale : Z) :
  method_keeps_device (set_pressure_scale scale).
Proof. intros self o self' [= <- <-]. apply same_device_refl. Qed.

Lemma method_fails_clean_bind {A B} (m : M LPS28 A) (k : A -> M LPS28 B) :
  method_keeps_device m -> (forall a, method_fails_clean (k a)) ->
  method_fails_clean (bind m k).
Proof.
  intros Hm Hk self e self'. unfold bind.
  destruct (m self) as [[a|e1] s1] eqn:E; intros H.
  - exact (same_device_trans _ _ _ (Hm _ _ _ E) (Hk a _ _ _ H)).
  - injection H as <- <-. exact (Hm _ _ _ E).
Qed.

Lemma method_fails_clean_returning {A} (inj : A -> pyobj) (m : M LPS28 A) :
  method_fails_clean m -> method_fails_clean (returning inj m).
Proof.
  intros Hm self e self'. unfold returning, bind.
  destruct (m self) as [[a|e1] s1] eqn:E; [discriminate|].
  intros [= <- <-]. exact (Hm _ _ _ E).
Qed.

Ltac read_only_step :=
  match goal with
  | |- method_read_only (returning _ _) => unfold returning
  | |- method_read_only (bind _ _) => apply method_read_only_bind; [|intros ?]
  | |- method_read_only (on_bus _) => apply method_read_only_on_bus
  | |- method_read_only (lift_outcome _) => apply method_read_only_lift
  | |- method_read_only (ret _) => apply method_read_only_ret
  | |- method_read_only (raise _) => apply method_read_only_raise
  | |- method_read_only get_state => apply method_read_only_get_state
  | |- read_only (Bits_get _) => apply read_only_Bits_get
  | |- read_only (Bit_get _) => apply read_only_Bit_get
  | |- read_only (Struct_get _) => apply read_only_Struct_get
  end.

Ltac fails_clean_step :=
  match goal with
  | |- method_fails_clean (returning _ _) => apply method_fails_clean_returning
  | |- method_fails_clean (if ?b then _ else _) => destruct b
  | |- method_fails_clean (bind _ _) => apply method_fails_clean_bind; [|intros ?]
  | |- method_fails_clean (on_bus _) => apply method_fails_clean_on_bus
  | |- method_fails_clean _ => apply method_keeps_device_fails_clean
  | |- method_keeps_device (set_pressure_scale _) =>
      apply method_keeps_device_set_scale
  | |- method_keeps_device _ => apply method_read_only_keeps_device
  | |- fails_clean (Bits_set _ _) => apply fails_clean_Bits_set
  | |- fails_clean (Bit_set _ _) => apply fails_clean_Bit_set
  | |- fails_clean (Struct_set _ _) => apply fails_clean_Struct_set
  | |- fails_clean _ => apply read_only_fails_clean
  | _ => read_only_step
  end.

Ltac unfold_methods :=
  unfold perform, data_rate, set_data_rate, resolution,
    set_resolution, full_scale, set_full_scale, pressure, temperature,
    high_threshold_enabled, set_high_threshold_enabled,
    low_threshold_enabled, set_low_threshold_enabled,
    high_threshold_exceeded, low_threshold_exceeded,
    pressure_threshold, set_pressure_threshold.

(** X4: a property read writes nothing.  Whatever the transport does and
    however the read ends, the device registers, the log of writes and
    the cached pressure scale are as before. *)
Theorem getters_write_nothing (c : call) (self self' : LPS28) (o : outcome pyobj) :
  is_getter c = true ->
  perform c self = (o, self') ->
  regs (i2c_device self') = regs (i2c_device self) /\
  writes (i2c_device self') = writes (i2c_device self) /\
  _pressure_scale self' = _pressure_scale self.
Proof.
  intros Hc H.
  assert (Hro : method_read_only (perform c))
    by (destruct c; try discriminate; unfold_methods; repeat read_only_step).
  destruct (Hro _ _ _ H) as [[Hr Hw] Hs]. auto.
Qed.

Lemma getters_write_nothing_witness :
  regs (i2c_device (snd (perform GetPressureThreshold lps_write_fails)))
    = regs (i2c_device lps_write_fails) /\
  writes (i2c_device (snd (perform GetPressureThreshold lps_write_fails)))
    = writes (i2c_device lps_write_fails) /\
  _pressure_scale (snd (perform GetPressureThreshold lps_write_fails))
    = _pressure_scale lps_write_fails.
Proof.
  apply (getters_write_nothing GetPressureThreshold lps_write_fails _
           (fst (perform GetPressureThreshold lps_write_fails)));
    reflexivity.
Defined.

(** X12: a call that raises has written nothing.  Whatever the call and
    the exception (an invalid setting, a transport error, an index out of
    range), the device registers and the log of writes are as before the
    call. *)
Theorem raising_call_wrote_nothing (c : call) (self self' : LPS28) (e : exn) :
  perform c self = (Raise e, self') ->
  regs (i2c_device self') = regs (i2c_device self) /\
  writes (i2c_device self') = writes (i2c_device self).
Proof.
  intros H.
  assert (Hfc : method_fails_clean (perform c))
    by (destruct c; unfold_methods; repeat fails_clean_step).
  exact (Hfc _ _ _ H).
Qed.

Lemma raising_call_wrote_nothing_witness :
  regs (i2c_device (snd (perform (SetDataRate RATE_50_HZ) lps_write_fails)))
    = regs (i2c_device lps_write_fails) /\
  writes (i2c_device (snd (perform (SetDataRate RATE_50_HZ) lps_write_fails)))
    = writes (i2c_device lps_write_fails).
Proof.
  apply (raising_call_wrote_nothing (SetDataRate RATE_50_HZ) lps_write_fails _ OSError).
  reflexivity.
Defined.

(** ** The cached scale is always one of the two scales *)

Lemma set_full_scale_scale (value : Z) (self self' : LPS28) (o : outcome unit) :
  valid_scale self -> set_full_scale value self = (o, self') -> valid_scale self'.
Proof.
  intros Hs H.
  destruct (set_full_scale_outcomes _ _ _ _ H)
    as [[_ [-> _]]|[[_ [_ [Hs' _]]]|[_ [_ [Hs' _]]]]]; [exact Hs| |];
    unfold valid_scale; rewrite Hs'; destruct (value =? 1); auto.
Qed.

Lemma pressure_outcomes (self self' : LPS28) (o : outcome Q) :
  _pressure_scale self <> 0 ->
  pressure self = (o, self') ->
  (exists p, o = Return p) \/ o = Raise OSError.
Proof.
  intros Hs. unfold pressure, bind, on_bus.
  destruct (Bits_get _reg_raw_pressure (i2c_device self)) as [[raw|e] d] eqn:E.
  - unfold get_state, lift_outcome. cbn [_pressure_scale].
    rewrite py_truediv_nonzero by assumption.
    intros [= <- _]. left. eexists. reflexivity.
  - intros [= <- _]. right. f_equal. exact (Bits_get_raises_OSError _ _ _ _ E).
Qed.

(** X3: the cached pressure scale is always 4096 or 2048.  Construction
    yields such an instance, every call keeps it so however the call ends
    (also when it raises), and therefore the pressure read never divides
    by zero: it returns a value or raises the transport's error. *)
Theorem scale_is_always_valid :
  (forall (i2c d : I2CDevice) (self : LPS28),
      __init__ i2c = (Return self, d) -> valid_scale self) /\
  (forall (c : call) (self self' : LPS28) (o : outcome pyobj),
      valid_scale self -> perform c self = (o, self') -> valid_scale self') /\
  (forall (self self' : LPS28) (o : outcome Q),
      valid_scale self -> pressure self = (o, self') ->
      (exists p, o = Return p) \/ o = Raise OSError).
Proof.
  split; [|split].
  - intros i2c d self H. apply init_returns in H as [-> _]. now left.
  - intros c self self' o Hs H.
    assert (Hc : (exists value, c = SetFullScale value) \/
                 (forall value, c <> SetFullScale value))
      by (destruct c; (left; eexists; reflexivity) || (right; intros; discriminate)).
    destruct Hc as [[value ->]|Hc].
    + unfold perform, returning, bind in H.
      destruct (set_full_scale value self) as [[u|e] s1] eqn:E;
        injection H as _ <-; exact (set_full_scale_scale _ _ _ _ Hs E).
    + destruct (perform_keeps_full_scale c Hc _ _ _ H) as [Hs' _].
      unfold valid_scale. now rewrite Hs'.
  - intros self self' o Hs H. apply (pressure_outcomes self self'); [|exact H].
    destruct Hs as [-> | ->]; discriminate.
Qed.

Lemma scale_is_always_valid_witness :
  valid_scale (mkLPS28 (snd (__init__ sensor_in_full_scale)) 4096) /\
  valid_scale (snd (perform (SetFullScale FULL_SCALE) lps_write_fails)) /\
  ((exists p, fst (pressure lps_write_fails) = Return p) \/
   fst (pressure lps_write_fails) = Raise OSError).
Proof.
  destruct scale_is_always_valid as [Hinit [Hcall Hread]].
  assert (Hs : valid_scale lps_write_fails) by (left; reflexivity).
  split; [|split].
  - exact (Hinit sensor_in_full_scale (snd (__init__ sensor_in_full_scale))
             (mkLPS28 (snd (__init__ sensor_in_full_scale)) 4096) eq_refl).
  - exact (Hcall (SetFullScale FULL_SCALE) lps_write_fails _
             (fst (perform (SetFullScale FULL_SCALE) lps_write_fails)) Hs eq_refl).
  - exact (Hread lps_write_fails (snd (pressure lps_write_fails))
             (fst (pressure lps_write_fails)) Hs eq_refl).
Defined.

(** ** Construction on a failing transport *)

Lemma Bits_set_raises_OSError (f : Bits) (value : Z) (d d' : I2CDevice) (e : exn) :
  Bits_set f value d = (Raise e, d') -> e = OSError.
Proof.
  unfold Bits_set, bind. rewrite write_then_readinto_eq.
  destruct (hd false (faults d)); [now intros [= <- _]|].
  rewrite i2c_write_eq.
  destruct (hd false (faults (advance d))); [now intros [= <- _]|discriminate].
Qed.

Lemma Bits_set_fails (f : Bits) (value : Z) (d : I2CDevice) :
  hd false (faults d) = true \/ hd false (tail (faults d)) = true ->
  exists d', Bits_set f value d = (Raise OSError, d').
Proof.
  intros H. unfold Bits_set, bind. rewrite write_then_readinto_eq.
  destruct (hd false (faults d)) eqn:E1; [eexists; reflexivity|].
  destruct H as [H|H]; [discriminate|].
  rewrite i2c_write_eq.
  change (faults (advance d)) with (tail (faults d)). rewrite H.
  eexists; reflexivity.
Qed.

Lemma init_body_fails_clean :
  fails_clean (bind (Struct_get _reg_device_id) (fun id =>
     if negb (id =? 0xB4) then raise (RuntimeError "Failed to find LPS28")
     else bind (Bits_set _reg_data_rate RATE_10_HZ) (fun _ => ret 4096))).
Proof.
  apply fails_clean_bind; [apply read_only_Struct_get|]. intros id.
  destruct (negb (id =? 0xB4)); [apply read_only_fails_clean, read_only_raise|].
  intros d e d'. unfold bind.
  destruct (Bits_set _reg_data_rate RATE_10_HZ d) as [[u|e1] d1] eqn:E;
    [discriminate|].
  intros [= <- <-]. exact (fails_clean_Bits_set _ _ _ _ _ E).
Qed.

(** X11: a construction that fails has written nothing to the device,
    and fails in one of two ways: with the transport's error, or with
    the not-found error when the identity read was answered with a byte
    other than 0xB4.  It fails with the transport's error when the
    identity read fails, and, on a sensor with the right identity, when
    the read or the write of CTRL_REG1 fails. *)
Theorem failed_construction_wrote_nothing (i2c : I2CDevice) :
  (forall (e : exn) (d : I2CDevice),
      __init__ i2c = (Raise e, d) ->
      regs d = regs i2c /\ writes d = writes i2c /\
      (e = OSError \/
       e = RuntimeError "Failed to find LPS28" /\
       reg_byte (regs i2c) _REG_WHOAMI <> 0xB4)) /\
  (hd false (faults i2c) = true ->
   exists d, __init__ i2c = (Raise OSError, d)) /\
  (hd false (faults i2c) = false ->
   reg_byte (regs i2c) _REG_WHOAMI = 0xB4 ->
   hd false (tail (faults i2c)) = true \/
   hd false (tail (tail (faults i2c))) = true ->
   exists d, __init__ i2c = (Raise OSError, d)).
Proof.
  split; [|split].
  - intros e d H.
    assert (Hclean : same_device i2c d).
    { unfold __init__ in H.
      match type of H with
      | context [bind ?m ?k i2c] =>
          destruct (bind m k i2c) as [[scale|e1] d1] eqn:E
      end; [discriminate|].
      injection H as <- <-. exact (init_body_fails_clean _ _ _ E). }
    destruct Hclean as [Hr Hw]. split; [exact Hr|]. split; [exact Hw|].
    unfold __init__, bind in H. rewrite device_id_eq in H.
    destruct (hd false (faults i2c)); [injection H as <- _; now left|].
    destruct (Z.eqb_spec (reg_byte (regs i2c) _REG_WHOAMI) 0xB4) as [Hid|Hid];
      cbn [negb] in H.
    + destruct (Bits_set _reg_data_rate RATE_10_HZ (advance i2c))
        as [[u|e1] d1] eqn:E; [discriminate|].
      injection H as <- _. left. exact (Bits_set_raises_OSError _ _ _ _ _ E).
    + injection H as <- _. right. split; [reflexivity|exact Hid].
  - intros Hf. unfold __init__, bind. rewrite device_id_eq, Hf.
    eexists; reflexivity.
  - intros Hf Hid Hfault. unfold __init__, bind. rewrite device_id_eq, Hf, Hid.
    change (negb (0xB4 =? 0xB4)) with false. cbv iota.
    destruct (Bits_set_fails _reg_data_rate RATE_10_HZ (advance i2c) Hfault)
      as [d' ->].
    eexists; reflexivity.
Qed.

Lemma failed_construction_wrote_nothing_witness :
  (exists d, __init__ sensor_silent = (Raise OSError, d)) /\
  (exists d, __init__ sensor_read_fails = (Raise OSError, d)) /\
  regs (snd (__init__ sensor_read_fails)) = regs sensor_read_fails /\
  writes (snd (__init__ sensor_read_fails)) = writes sensor_read_fails.
Proof.
  split; [|split].
  - exact (proj1 (proj2 (failed_construction_wrote_nothing sensor_silent)) eq_refl).
  - exact (proj2 (proj2 (failed_construction_wrote_nothing sensor_read_fails))
             eq_refl eq_refl (or_introl eq_refl)).
  - destruct (proj1 (failed_construction_wrote_nothing sensor_read_fails)
                OSError (snd (__init__ sensor_read_fails)) eq_refl)
      as [Hr [Hw _]].
    split; [exact Hr|exact Hw].
Defined.

(** ** What the enumerated getters make of the register *)

Lemma data_rate_field_reliable (self : LPS28) :
  reliable (i2c_device self) ->
  on_bus (Bits_get _reg_data_rate) self =
    (Return (odr_field (reg_byte (regs (i2c_device self)) _REG_CTRL_REG1)), self).
Proof.
  intros Hd. apply on_bus_returns.
  rewrite Bits_get_reliable by (reflexivity || assumption).
  now rewrite odr_field_read by apply reg_byte_range.
Qed.

Lemma resolution_field_reliable (self : LPS28) :
  reliable (i2c_device self) ->
  on_bus (Bits_get _reg_resolution) self =
    (Return (avg_field (reg_byte (regs (i2c_device self)) _REG_CTRL_REG1)), self).
Proof.
  intros Hd. apply on_bus_returns.
  rewrite Bits_get_reliable by (reflexivity || assumption).
  now rewrite avg_field_read by apply reg_byte_range.
Qed.

Lemma odr_field_range (b : Z) : 0 <= odr_field b < 16.
Proof.
  unfold odr_field. change 15 with (Z.ones 4).
  rewrite Z.land_ones by lia. apply Z.mod_pos_bound. lia.
Qed.

Lemma avg_field_range (b : Z) : 0 <= avg_field b < 8.
Proof.
  unfold avg_field. change 7 with (Z.ones 3).
  rewrite Z.land_ones by lia. apply Z.mod_pos_bound. lia.
Qed.

(** X9: on a transport that answers, the data_rate getter names the ODR
    field of CTRL_REG1 when it holds one of the nine codes 0 to 8, and
    raises IndexError when it holds one of the codes 9 to 15, which the
    setter never writes. *)
Theorem data_rate_get_by_field (self : LPS28) :
  reliable (i2c_device self) ->
  let code := odr_field (reg_byte (regs (i2c_device self)) _REG_CTRL_REG1) in
  (code <= 8 ->
   exists name, In (code, name) data_rate_names /\
                data_rate self = (Return name, self)) /\
  (9 <= code -> data_rate self = (Raise IndexError, self) /\
                ~ In code data_rate_values).
Proof.
  intros Hd code.
  pose proof (odr_field_range (reg_byte (regs (i2c_device self)) _REG_CTRL_REG1))
    as Hrange. fold code in Hrange.
  assert (Hget : data_rate self =
                 bind (lift_outcome (Return code)) (fun i =>
                   lift_outcome (py_index
                     ["ONE_SHOT"; "RATE_1_HZ"; "RATE_4_HZ"; "RATE_10_HZ";
                      "RATE_25_HZ"; "RATE_50_HZ"; "RATE_75_HZ"; "RATE_100_HZ";
                      "RATE_200_HZ"] i)) self).
  { unfold data_rate, bind at 1. rewrite data_rate_field_reliable by assumption.
    reflexivity. }
  rewrite Hget. clearbody code. split; intros Hc.
  - assert (Hcases : code = 0 \/ code = 1 \/ code = 2 \/ code = 3 \/ code = 4 \/
                     code = 5 \/ code = 6 \/ code = 7 \/ code = 8) by lia.
    repeat (destruct Hcases as [->|Hcases];
            [eexists; split; [|reflexivity]; simpl; tauto|]).
    subst code. eexists; split; [|reflexivity]; simpl; tauto.
  - split.
    + assert (Hcases : code = 9 \/ code = 10 \/ code = 11 \/ code = 12 \/
                       code = 13 \/ code = 14 \/ code = 15) by lia.
      repeat (destruct Hcases as [->|Hcases]; [reflexivity|]).
      subst code. reflexivity.
    + intros Hin. apply data_rate_range in Hin as Hr.
      unfold data_rate_values, ONE_SHOT, RATE_1_HZ, RATE_4_HZ, RATE_10_HZ,
        RATE_25_HZ, RATE_50_HZ, RATE_75_HZ, RATE_100_HZ, RATE_200_HZ in Hin.
      simpl in Hin. lia.
Qed.

Lemma data_rate_get_by_field_witness :
  data_rate (mkLPS28 sensor_odd_rate 4096)
    = (Raise IndexError, mkLPS28 sensor_odd_rate 4096) /\
  ~ In 10 data_rate_values.
Proof.
  apply (proj2 (data_rate_get_by_field (mkLPS28 sensor_odd_rate 4096) eq_refl)).
  vm_compute. discriminate.
Defined.

(** X10: on a transport that answers, the resolution getter names the
    AVG field of CTRL_REG1 by position in its seven-entry table: the
    codes 0 to 5 read as RES_4 to RES_128; the code 0b110, which is no
    resolution setting and which the setter rejects, reads as "RES_512";
    and the code 0b111 raises IndexError. *)
Theorem resolution_get_by_field (self : LPS28) :
  reliable (i2c_device self) ->
  let code := avg_field (reg_byte (regs (i2c_device self)) _REG_CTRL_REG1) in
  (code <= 5 ->
   exists name, In (code, name) resolution_names_below_512 /\
                resolution self = (Return name, self)) /\
  (code = 6 -> resolution self = (Return "RES_512", self) /\
               ~ In code resolution_values) /\
  (code = 7 -> resolution self = (Raise IndexError, self)).
Proof.
  intros Hd code.
  pose proof (avg_field_range (reg_byte (regs (i2c_device self)) _REG_CTRL_REG1))
    as Hrange. fold code in Hrange.
  assert (Hget : resolution self =
                 bind (lift_outcome (Return code)) (fun i =>
                   lift_outcome (py_index
                     ["RES_4"; "RES_8"; "RES_16"; "RES_32"; "RES_64"; "RES_128";
                      "RES_512"] i)) self).
  { unfold resolution, bind at 1. rewrite resolution_field_reliable by assumption.
    reflexivity. }
  rewrite Hget. clearbody code. split; [|split]; intros Hc.
  - assert (Hcases : code = 0 \/ code = 1 \/ code = 2 \/ code = 3 \/ code = 4 \/
                     code = 5) by lia.
    repeat (destruct Hcases as [->|Hcases];
            [eexists; split; [|reflexivity]; simpl; tauto|]).
    subst code. eexists; split; [|reflexivity]; simpl; tauto.
  - subst code. split; [reflexivity|].
    unfold resolution_values, RES_4, RES_8, RES_16, RES_32, RES_64, RES_128, RES_512.
    simpl. lia.
  - subst code. reflexivity.
Qed.

Lemma resolution_get_by_field_witness :
  resolution (mkLPS28 sensor_odd_rate 4096)
    = (Return "RES_512", mkLPS28 sensor_odd_rate 4096) /\
  ~ In 6 resolution_values.
Proof.
  exact (proj1 (proj2 (resolution_get_by_field (mkLPS28 sensor_odd_rate 4096) eq_refl))
           eq_refl).
Defined.

(** X17: after a successful construction the data_rate getter returns
    "RATE_10_HZ", whatever CTRL_REG1 held before. *)
Theorem data_rate_after_construction (i2c : I2CDevice) :
  reliable i2c ->
  reg_byte (regs i2c) _REG_WHOAMI = 0xB4 ->
  exists self,
    __init__ i2c = (Return self, i2c_device self) /\
    data_rate self = (Return "RATE_10_HZ", self).
Proof.
  intros Hd Hid.
  pose proof (init_right_identity i2c Hd Hid) as Hinit. cbv zeta in Hinit.
  eexists (mkLPS28 _ 4096). split; [exact Hinit|].
  unfold data_rate, bind.
  rewrite data_rate_field_reliable by exact Hd.
  cbn [i2c_device]. unfold wrote at 1. cbn [regs]. rewrite reg_byte_store_1.
  rewrite <- Z.land_assoc. change (Z.land 255 255) with 255.
  destruct (odr_update _ (reg_byte_range (regs i2c) _REG_CTRL_REG1)) as [-> _].
  reflexivity.
Qed.

Lemma data_rate_after_construction_witness :
  exists self,
    __init__ sensor_in_full_scale = (Return self, i2c_device self) /\
    data_rate self = (Return "RATE_10_HZ", self).
Proof. exact (data_rate_after_construction sensor_in_full_scale eq_refl eq_refl). Defined.

(** ** Settings that share a register *)

Lemma odr_write_fields (old value : Z) :
  0 <= old < 256 -> 0 <= value < 16 ->
  let new := Z.land (Z.land (field_update _reg_data_rate old value) 255) 255 in
  odr_field new = value /\ avg_field new = avg_field old /\
  Z.testbit new 7 = Z.testbit old 7.
Proof.
  intros Hold Hvalue new. subst new.
  pose (P := fun v old =>
    let new := Z.land (Z.land (field_update _reg_data_rate old v) 255) 255 in
    (odr_field new =? v) && (avg_field new =? avg_field old)
    && Bool.eqb (Z.testbit new 7) (Z.testbit old 7)).
  assert (Hv : forallb (P value) (map Z.of_nat (seq 0 256)) = true)
    by (apply (all_below 16 (fun v => forallb (P v) (map Z.of_nat (seq 0 256))));
        [vm_compute; reflexivity|assumption]).
  pose proof (all_below 256 _ Hv old Hold) as H. unfold P in H. cbv zeta in H.
  apply andb_true_iff in H as [H H3]. apply andb_true_iff in H as [H1 H2].
  apply Z.eqb_eq in H1, H2. apply eqb_prop in H3. auto.
Qed.

Lemma avg_write_fields (old value : Z) :
  0 <= old < 256 -> 0 <= value < 8 ->
  let new := Z.land (Z.land (field_update _reg_resolution old value) 255) 255 in
  avg_field new = value /\ odr_field new = odr_field old /\
  Z.testbit new 7 = Z.testbit old 7.
Proof.
  intros Hold Hvalue new. subst new.
  pose (P := fun v old =>
    let new := Z.land (Z.land (field_update _reg_resolution old v) 255) 255 in
    (avg_field new =? v) && (odr_field new =? odr_field old)
    && Bool.eqb (Z.testbit new 7) (Z.testbit old 7)).
  assert (Hv : forallb (P value) (map Z.of_nat (seq 0 256)) = true)
    by (apply (all_below 8 (fun v => forallb (P v) (map Z.of_nat (seq 0 256))));
        [vm_compute; reflexivity|assumption]).
  pose proof (all_below 256 _ Hv old Hold) as H. unfold P in H. cbv zeta in H.
  apply andb_true_iff in H as [H H3]. apply andb_true_iff in H as [H1 H2].
  apply Z.eqb_eq in H1, H2. apply eqb_prop in H3. auto.
Qed.

Lemma set_data_rate_fields (value : Z) (self : LPS28) :
  reliable (i2c_device self) -> In value data_rate_values ->
  exists self',
    set_data_rate value self = (Return tt, self') /\
    reliable (i2c_device self') /\
    odr_field (reg_byte (regs (i2c_device self')) _REG_CTRL_REG1) = value /\
    avg_field (reg_byte (regs (i2c_device self')) _REG_CTRL_REG1)
      = avg_field (reg_byte (regs (i2c_device self)) _REG_CTRL_REG1) /\
    Z.testbit (reg_byte (regs (i2c_device self')) _REG_CTRL_REG1) 7
      = Z.testbit (reg_byte (regs (i2c_device self)) _REG_CTRL_REG1) 7.
Proof.
  intros Hd Hin.
  destruct (field_set_then_get _reg_data_rate value self eq_refl Hd) as [Hset _].
  eexists. split; [|split].
  - unfold set_data_rate. rewrite py_in_true by assumption. exact Hset.
  - exact Hd.
  - cbn [i2c_device]. unfold wrote. cbn [regs]. rewrite reg_byte_store_1.
    apply odr_write_fields; [apply reg_byte_range|now apply data_rate_range].
Qed.

Lemma set_resolution_fields (value : Z) (self : LPS28) :
  reliable (i2c_device self) -> In value resolution_values ->
  exists self',
    set_resolution value self = (Return tt, self') /\
    reliable (i2c_device self') /\
    avg_field (reg_byte (regs (i2c_device self')) _REG_CTRL_REG1) = value /\
    odr_field (reg_byte (regs (i2c_device self')) _REG_CTRL_REG1)
      = odr_field (reg_byte (regs (i2c_device self)) _REG_CTRL_REG1) /\
    Z.testbit (reg_byte (regs (i2c_device self')) _REG_CTRL_REG1) 7
      = Z.testbit (reg_byte (regs (i2c_device self)) _REG_CTRL_REG1) 7.
Proof.
  intros Hd Hin.
  destruct (field_set_then_get _reg_resolution value self eq_refl Hd) as [Hset _].
  eexists. split; [|split].
  - unfold set_resolution. rewrite py_in_true by assumption. exact Hset.
  - exact Hd.
  - cbn [i2c_device]. unfold wrote. cbn [regs]. rewrite reg_byte_store_1.
    apply avg_write_fields; [apply reg_byte_range|now apply resolution_range].
Qed.

(** X5: data rate and resolution live in the same register and do not
    disturb each other.  Setting one and then the other, in either
    order, leaves the ODR field holding the rate set, the AVG field
    holding the resolution set, and the top bit of CTRL_REG1 as it
    was. *)
Theorem data_rate_and_resolution_are_independent
    (self : LPS28) (rate res : Z) :
  reliable (i2c_device self) ->
  In rate data_rate_values -> In res resolution_values ->
  (exists self',
     (set_resolution res ;;; set_data_rate rate) self = (Return tt, self') /\
     odr_field (reg_byte (regs (i2c_device self')) _REG_CTRL_REG1) = rate /\
     avg_field (reg_byte (regs (i2c_device self')) _REG_CTRL_REG1) = res /\
     Z.testbit (reg_byte (regs (i2c_device self')) _REG_CTRL_REG1) 7
       = Z.testbit (reg_byte (regs (i2c_device self)) _REG_CTRL_REG1) 7) /\
  (exists self',
     (set_data_rate rate ;;; set_resolution res) self = (Return tt, self') /\
     odr_field (reg_byte (regs (i2c_device self')) _REG_CTRL_REG1) = rate /\
     avg_field (reg_byte (regs (i2c_device self')) _REG_CTRL_REG1) = res /\
     Z.testbit (reg_byte (regs (i2c_device self')) _REG_CTRL_REG1) 7
       = Z.testbit (reg_byte (regs (i2c_device self)) _REG_CTRL_REG1) 7).
Proof.
  intros Hd Hrate Hres. split.
  - destruct (set_resolution_fields res self Hd Hres)
      as [s1 [Hset1 [Hd1 [Havg1 [_ Htop1]]]]].
    destruct (set_data_rate_fields rate s1 Hd1 Hrate)
      as [s2 [Hset2 [_ [Hodr2 [Havg2 Htop2]]]]].
    exists s2. unfold bind. rewrite Hset1, Hset2.
    repeat split; congruence.
  - destruct (set_data_rate_fields rate self Hd Hrate)
      as [s1 [Hset1 [Hd1 [Hodr1 [_ Htop1]]]]].
    destruct (set_resolution_fields res s1 Hd1 Hres)
      as [s2 [Hset2 [_ [Havg2 [Hodr2 Htop2]]]]].
    exists s2. unfold bind. rewrite Hset1, Hset2.
    repeat split; congruence.
Qed.

Lemma data_rate_and_resolution_are_independent_witness :
  exists self',
    (set_resolution RES_512 ;;; set_data_rate RATE_200_HZ) lps_at_reset
      = (Return tt, self') /\
    odr_field (reg_byte (regs (i2c_device self')) _REG_CTRL_REG1) = RATE_200_HZ /\
    avg_field (reg_byte (regs (i2c_device self')) _REG_CTRL_REG1) = RES_512 /\
    Z.testbit (reg_byte (regs (i2c_device self')) _REG_CTRL_REG1) 7
      = Z.testbit (reg_byte (regs (i2c_device lps_at_reset)) _REG_CTRL_REG1) 7.
Proof.
  apply (proj1 (data_rate_and_resolution_are_independent
                  lps_at_reset RATE_200_HZ RES_512 eq_refl
                  ltac:(simpl; tauto) ltac:(simpl; tauto))).
Defined.

(** ** Single-bit settings *)

Lemma bit_update_testbit (f : Bit) (k old i : Z) (value : bool) :
  bit_bitmask f = 2 ^ k -> 0 <= k -> 0 <= i ->
  Z.testbit (bit_update f old value) i
  = if i =? k then value else Z.testbit old i.
Proof.
  intros Hmask Hk Hi. unfold bit_update. rewrite Hmask.
  destruct value.
  - rewrite Z.lor_spec, Z.pow2_bits_eqb by lia.
    rewrite (Z.eqb_sym k i).
    destruct (i =? k); [apply orb_true_r|apply orb_false_r].
  - rewrite Z.land_spec, Z.lnot_spec, Z.pow2_bits_eqb by lia.
    rewrite (Z.eqb_sym k i).
    destruct (i =? k); [apply andb_false_r|apply andb_true_r].
Qed.

Lemma testbit_low_byte (b i : Z) :
  0 <= i < 8 -> Z.testbit (Z.land b 255) i = Z.testbit b i.
Proof.
  intros Hi. rewrite Z.land_spec. change 255 with (Z.ones 8).
  rewrite Z.ones_spec_low by lia. apply andb_true_r.
Qed.

Lemma Bit_set_reliable (f : Bit) (value : bool) (self : LPS28) :
  bit_width f = 1%nat -> bit_byte f = 0%nat -> reliable (i2c_device self) ->
  on_bus (Bit_set f value) self =
    (Return tt,
     mkLPS28 (wrote (bit_address f)
                    [bit_update f (reg_byte (regs (i2c_device self)) (bit_address f))
                                value]
                    (i2c_device self))
             (_pressure_scale self)).
Proof.
  intros Hw Hb Hd. unfold on_bus. rewrite Bit_set_eq by assumption.
  rewrite !advance_reliable by assumption.
  unfold reliable in Hd. rewrite Hd. reflexivity.
Qed.

Lemma bit_written (f : Bit) (k i : Z) (value : bool) (d : I2CDevice) :
  bit_bitmask f = 2 ^ k -> 0 <= k -> 0 <= i < 8 ->
  Z.testbit (reg_byte (regs (wrote (bit_address f)
                                   [bit_update f (reg_byte (regs d) (bit_address f))
                                               value] d))
                      (bit_address f)) i
  = if i =? k then value else Z.testbit (reg_byte (regs d) (bit_address f)) i.
Proof.
  intros Hmask Hk Hi. unfold wrote. cbn [regs]. rewrite reg_byte_store_1.
  rewrite testbit_low_byte by assumption.
  apply bit_update_testbit; [assumption|lia|lia].
Qed.

Lemma other_registers_kept (a x b : Z) (d : I2CDevice) :
  x <> a -> regs (wrote a [b] d) !! x = regs d !! x.
Proof.
  intros Hx. unfold wrote. cbn [regs]. apply store_bytes_outside.
  simpl. lia.
Qed.

(** X6: a successful full_scale set changes bit 6 of CTRL_REG2 and
    nothing else on the device: the other seven bits of CTRL_REG2 and
    every other register are as before. *)
Theorem full_scale_set_changes_one_bit (value : Z) (self : LPS28) :
  In value full_scale_values -> reliable (i2c_device self) ->
  exists self',
    set_full_scale value self = (Return tt, self') /\
    Z.testbit (reg_byte (regs (i2c_device self')) _REG_CTRL_REG2) 6 = (value =? 1) /\
    (forall i, 0 <= i < 8 -> i <> 6 ->
       Z.testbit (reg_byte (regs (i2c_device self')) _REG_CTRL_REG2) i
       = Z.testbit (reg_byte (regs (i2c_device self)) _REG_CTRL_REG2) i) /\
    (forall a, a <> _REG_CTRL_REG2 ->
       regs (i2c_device self') !! a = regs (i2c_device self) !! a).
Proof.
  intros Hin Hd.
  destruct (full_scale_set_then_get value self Hd Hin) as [Hset _].
  eexists. split; [exact Hset|]. cbn [i2c_device].
  split; [|split].
  - change _REG_CTRL_REG2 with (bit_address _reg_full_scale).
    rewrite (bit_written _reg_full_scale 6) by (reflexivity || lia). reflexivity.
  - intros i Hi Hne.
    change _REG_CTRL_REG2 with (bit_address _reg_full_scale).
    rewrite (bit_written _reg_full_scale 6) by (reflexivity || lia).
    destruct (Z.eqb_spec i 6); [contradiction|reflexivity].
  - intros a Ha. now apply other_registers_kept.
Qed.

Lemma full_scale_set_changes_one_bit_witness :
  exists self',
    set_full_scale NORMAL (mkLPS28 sensor_with_threshold 2048) = (Return tt, self') /\
    Z.testbit (reg_byte (regs (i2c_device self')) _REG_CTRL_REG2) 6 = (NORMAL =? 1) /\
    (forall i, 0 <= i < 8 -> i <> 6 ->
       Z.testbit (reg_byte (regs (i2c_device self')) _REG_CTRL_REG2) i
       = Z.testbit (reg_byte (regs sensor_with_threshold) _REG_CTRL_REG2) i) /\
    (forall a, a <> _REG_CTRL_REG2 ->
       regs (i2c_device self') !! a = regs sensor_with_threshold !! a).
Proof.
  apply (full_scale_set_changes_one_bit NORMAL (mkLPS28 sensor_with_threshold 2048)).
  - simpl. tauto.
  - reflexivity.
Defined.

Lemma Bit_get_testbit (f : Bit) (k : Z) (self : LPS28) :
  bit_width f = 1%nat -> bit_byte f = 0%nat ->
  bit_bitmask f = Z.shiftl 1 k -> 0 <= k ->
  reliable (i2c_device self) ->
  on_bus (Bit_get f) self =
    (Return (Z.testbit (reg_byte (regs (i2c_device self)) (bit_address f)) k), self).
Proof.
  intros Hw Hb Hmask Hk Hd. apply on_bus_returns.
  rewrite Bit_get_reliable by assumption.
  now rewrite Hmask, mask_test_testbit.
Qed.

Lemma enable_set (f : Bit) (k : Z) (value : bool) (self : LPS28) :
  bit_width f = 1%nat -> bit_byte f = 0%nat ->
  bit_bitmask f = Z.shiftl 1 k -> 0 <= k < 8 ->
  reliable (i2c_device self) ->
  exists self',
    on_bus (Bit_set f value) self = (Return tt, self') /\
    reliable (i2c_device self') /\
    _pressure_scale self' = _pressure_scale self /\
    (forall i, 0 <= i < 8 ->
       Z.testbit (reg_byte (regs (i2c_device self')) (bit_address f)) i
       = if i =? k then value
         else Z.testbit (reg_byte (regs (i2c_device self)) (bit_address f)) i) /\
    (forall a, a <> bit_address f ->
       regs (i2c_device self') !! a = regs (i2c_device self) !! a).
Proof.
  intros Hw Hb Hmask Hk Hd.
  eexists. split; [now apply Bit_set_reliable|].
  cbn [i2c_device _pressure_scale].
  split; [exact Hd|]. split; [reflexivity|]. split.
  - intros i Hi. apply bit_written; [|lia|assumption].
    rewrite Hmask. apply Z.shiftl_1_l.
  - intros a Ha. now apply other_registers_kept.
Qed.

Lemma set_high_threshold_enabled_bool (value : bool) (self : LPS28) :
  set_high_threshold_enabled (PBool value) self
  = on_bus (Bit_set _reg_interrupt_high value) self.
Proof. destruct value; reflexivity. Qed.

Lemma set_low_threshold_enabled_bool (value : bool) (self : LPS28) :
  set_low_threshold_enabled (PBool value) self
  = on_bus (Bit_set _reg_interrupt_low value) self.
Proof. destruct value; reflexivity. Qed.

(** X7: the two threshold enables are independent bits of
    INTERRUPT_CFG.  Setting high_threshold_enabled to a boolean and
    getting it returns that boolean, the low enable reads as before, and
    bits 2 to 7 of the register are as before; and the same with high
    and low exchanged. *)
Theorem threshold_enables_round_trip (value : bool) (self : LPS28) :
  reliable (i2c_device self) ->
  (exists self',
     set_high_threshold_enabled (PBool value) self = (Return tt, self') /\
     high_threshold_enabled self' = (Return value, self') /\
     low_threshold_enabled self' = (fst (low_threshold_enabled self), self') /\
     forall i, 2 <= i < 8 ->
       Z.testbit (interrupt_cfg (i2c_device self')) i
       = Z.testbit (interrupt_cfg (i2c_device self)) i) /\
  (exists self',
     set_low_threshold_enabled (PBool value) self = (Return tt, self') /\
     low_threshold_enabled self' = (Return value, self') /\
     high_threshold_enabled self' = (fst (high_threshold_enabled self), self') /\
     forall i, 2 <= i < 8 ->
       Z.testbit (interrupt_cfg (i2c_device self')) i
       = Z.testbit (interrupt_cfg (i2c_device self)) i).
Proof.
  intros Hd.
  assert (Hhigh : forall s, reliable (i2c_device s) ->
            high_threshold_enabled s
            = (Return (Z.testbit (interrupt_cfg (i2c_device s)) 0), s))
    by (intros s Hs; apply (Bit_get_testbit _reg_interrupt_high 0);
        (reflexivity || lia || assumption)).
  assert (Hlow : forall s, reliable (i2c_device s) ->
            low_threshold_enabled s
            = (Return (Z.testbit (interrupt_cfg (i2c_device s)) 1), s))
    by (intros s Hs; apply (Bit_get_testbit _reg_interrupt_low 1);
        (reflexivity || lia || assumption)).
  split.
  - destruct (enable_set _reg_interrupt_high 0 value self eq_refl eq_refl eq_refl
                ltac:(lia) Hd) as [s [Hset [Hs [_ [Hbits _]]]]].
    exists s. split; [now rewrite set_high_threshold_enabled_bool|].
    rewrite (Hhigh s Hs), (Hlow s Hs), (Hlow self Hd). unfold interrupt_cfg.
    change _REG_INTERRUPT_CFG with (bit_address _reg_interrupt_high).
    split; [now rewrite (Hbits 0) by lia|].
    split; [now rewrite (Hbits 1) by lia|].
    intros i Hi. rewrite (Hbits i) by lia.
    destruct (Z.eqb_spec i 0); [lia|reflexivity].
  - destruct (enable_set _reg_interrupt_low 1 value self eq_refl eq_refl eq_refl
                ltac:(lia) Hd) as [s [Hset [Hs [_ [Hbits _]]]]].
    exists s. split; [now rewrite set_low_threshold_enabled_bool|].
    rewrite (Hhigh s Hs), (Hlow s Hs), (Hhigh self Hd). unfold interrupt_cfg.
    change _REG_INTERRUPT_CFG with (bit_address _reg_interrupt_low).
    split; [now rewrite (Hbits 1) by lia|].
    split; [now rewrite (Hbits 0) by lia|].
    intros i Hi. rewrite (Hbits i) by lia.
    destruct (Z.eqb_spec i 1); [lia|reflexivity].
Qed.

Lemma threshold_enables_round_trip_witness :
  exists self',
    set_high_threshold_enabled (PBool true) lps_at_reset = (Return tt, self') /\
    high_threshold_enabled self' = (Return true, self') /\
    low_threshold_enabled self' = (fst (low_threshold_enabled lps_at_reset), self') /\
    forall i, 2 <= i < 8 ->
      Z.testbit (interrupt_cfg (i2c_device self')) i
      = Z.testbit (interrupt_cfg (i2c_device lps_at_reset)) i.
Proof.
  exact (proj1 (threshold_enables_round_trip true lps_at_reset eq_refl)).
Defined.

(** X8: the exceeded flags are bits 0 (high) and 1 (low) of INT_SOURCE,
    and the enable setters, which write INTERRUPT_CFG, do not change what
    they read. *)
Theorem exceeded_flags_read_int_source (self : LPS28) :
  reliable (i2c_device self) ->
  high_threshold_exceeded self
    = (Return (Z.testbit (int_source (i2c_device self)) 0), self) /\
  low_threshold_exceeded self
    = (Return (Z.testbit (int_source (i2c_device self)) 1), self) /\
  forall value : bool,
    (set_high_threshold_enabled (PBool value) ;;; high_threshold_exceeded) self
      = (Return (Z.testbit (int_source (i2c_device self)) 0),
         snd (set_high_threshold_enabled (PBool value) self)) /\
    (set_low_threshold_enabled (PBool value) ;;; low_threshold_exceeded) self
      = (Return (Z.testbit (int_source (i2c_device self)) 1),
         snd (set_low_threshold_enabled (PBool value) self)).
Proof.
  intros Hd.
  assert (Hhigh : forall s, reliable (i2c_device s) ->
            high_threshold_exceeded s
            = (Return (Z.testbit (int_source (i2c_device s)) 0), s))
    by (intros s Hs; apply (Bit_get_testbit _reg_pressure_high 0);
        (reflexivity || lia || assumption)).
  assert (Hlow : forall s, reliable (i2c_device s) ->
            low_threshold_exceeded s
            = (Return (Z.testbit (int_source (i2c_device s)) 1), s))
    by (intros s Hs; apply (Bit_get_testbit _reg_pressure_low 1);
        (reflexivity || lia || assumption)).
  split; [exact (Hhigh self Hd)|]. split; [exact (Hlow self Hd)|].
  intros value. split.
  - destruct (enable_set _reg_interrupt_high 0 value self eq_refl eq_refl eq_refl
                ltac:(lia) Hd) as [s [Hset [Hs [_ [_ Hother]]]]].
    unfold bind. rewrite set_high_threshold_enabled_bool, Hset. cbn [snd].
    rewrite (Hhigh s Hs). do 3 f_equal. unfold int_source, reg_byte.
    rewrite Hother; [reflexivity|discriminate].
  - destruct (enable_set _reg_interrupt_low 1 value self eq_refl eq_refl eq_refl
                ltac:(lia) Hd) as [s [Hset [Hs [_ [_ Hother]]]]].
    unfold bind. rewrite set_low_threshold_enabled_bool, Hset. cbn [snd].
    rewrite (Hlow s Hs). do 3 f_equal. unfold int_source, reg_byte.
    rewrite Hother; [reflexivity|discriminate].
Qed.

Lemma exceeded_flags_read_int_source_witness :
  high_threshold_exceeded lps_at_reset
    = (Return (Z.testbit (int_source (i2c_device lps_at_reset)) 0), lps_at_reset).
Proof. exact (proj1 (exceeded_flags_read_int_source lps_at_reset eq_refl)). Defined.

(** ** Thresholds the register can hold *)

Lemma Qred_inject_Z (z : Z) : Qred (inject_Z z) = inject_Z z.
Proof.
  apply Qcanon.Qred_identity. unfold inject_Z. simpl. apply Z.gcd_1_r.
Qed.

Lemma threshold_raw_back (k f : Z) :
  f <> 0 -> Qred (threshold_of_raw k f * inject_Z f) = inject_Z k.
Proof.
  intros Hf. transitivity (Qred (inject_Z k)); [|apply Qred_inject_Z].
  apply Qred_complete.
  unfold threshold_of_raw. rewrite Qred_correct, Qmult_comm.
  apply Qmult_div_r. unfold Qeq. simpl. lia.
Qed.

Lemma pack_H_in_range (k : Z) :
  0 <= k < 65536 -> pack fmt_H (inject_Z k) = [k mod 256; k / 256].
Proof.
  intros Hk. unfold pack, inject_Z. cbn [Qnum Qden calcsize le_bytes].
  rewrite Z.quot_1_r. f_equal; [|f_equal].
  - change 255 with (Z.ones 8). now rewrite Z.land_ones by lia.
  - rewrite Z.shiftr_div_pow2 by lia. change 255 with (Z.ones 8).
    rewrite Z.land_ones by lia. change (2 ^ 8) with 256.
    apply Z.mod_small. Z.div_mod_to_equations. lia.
Qed.

Lemma ths_p_of_bytes (k : Z) (d : I2CDevice) :
  0 <= k < 65536 -> ths_p (wrote _REG_THS_P_L [k mod 256; k / 256] d) = k.
Proof.
  intros Hk. rewrite ths_p_written. change 255 with (Z.ones 8).
  rewrite !Z.land_ones by lia. change (2 ^ 8) with 256.
  rewrite Z.mod_mod by lia.
  rewrite (Z.mod_small (k / 256)) by (Z.div_mod_to_equations; lia).
  Z.div_mod_to_equations. lia.
Qed.

Lemma threshold_factor_nonzero (d : I2CDevice) : threshold_factor d <> 0.
Proof. unfold threshold_factor. destruct (fs_mode d); discriminate. Qed.

Lemma set_threshold_of_raw (k : Z) (self : LPS28) :
  reliable (i2c_device self) -> 0 <= k < 65536 ->
  set_pressure_threshold (threshold_of_raw k (threshold_factor (i2c_device self))) self
  = (Return tt,
     mkLPS28 (wrote _REG_THS_P_L [k mod 256; k / 256] (i2c_device self))
             (_pressure_scale self)).
Proof.
  intros Hd Hk.
  rewrite set_pressure_threshold_reliable by assumption. cbv zeta.
  fold (threshold_factor (i2c_device self)).
  rewrite threshold_raw_back by apply threshold_factor_nonzero.
  now rewrite pack_H_in_range.
Qed.

(** X13: every threshold the register can hold round-trips exactly, in
    either mode.  For a raw value k of 16 bits, setting pressure_threshold
    to k divided by the factor of the current mode (16 normal, 8
    full-scale) writes the two bytes of k, little-endian, in one write,
    and pressure_threshold then returns the value that was set. *)
Theorem threshold_round_trip (k : Z) (self : LPS28) :
  reliable (i2c_device self) -> 0 <= k < 65536 ->
  let value := threshold_of_raw k (threshold_factor (i2c_device self)) in
  exists self',
    set_pressure_threshold value self = (Return tt, self') /\
    writes (i2c_device self')
      = writes (i2c_device self) ++ [(_REG_THS_P_L, [k mod 256; k / 256])] /\
    ths_p (i2c_device self') = k /\
    pressure_threshold self' = (Return value, self').
Proof.
  intros Hd Hk value. subst value.
  eexists. split; [now apply set_threshold_of_raw|].
  cbn [i2c_device]. split; [reflexivity|].
  split; [now apply ths_p_of_bytes|].
  rewrite pressure_threshold_reliable by exact Hd. cbn [i2c_device].
  rewrite fs_mode_kept_by_threshold by reflexivity.
  rewrite ths_p_of_bytes by assumption. reflexivity.
Qed.

Lemma threshold_round_trip_witness :
  exists self',
    set_pressure_threshold (25 # 1) (mkLPS28 sensor_with_threshold 2048)
      = (Return tt, self') /\
    writes (i2c_device self')
      = writes sensor_with_threshold ++ [(_REG_THS_P_L, [200 mod 256; 200 / 256])] /\
    ths_p (i2c_device self') = 200 /\
    pressure_threshold self' = (Return (25 # 1)%Q, self').
Proof.
  exact (threshold_round_trip 200 (mkLPS28 sensor_with_threshold 2048)
           eq_refl ltac:(lia)).
Defined.

Lemma ths_p_kept_by_mode (b : Z) (d : I2CDevice) :
  ths_p (wrote _REG_CTRL_REG2 [b] d) = ths_p d.
Proof. apply ths_p_kept. now right. Qed.

(** X14: changing the full-scale mode does not convert the threshold.
    After a threshold of raw value k is set, a successful full_scale set
    leaves the raw value in the register, and pressure_threshold then
    returns k divided by the factor of the new mode. *)
Theorem threshold_not_rescaled_by_mode (k mode : Z) (self : LPS28) :
  reliable (i2c_device self) -> 0 <= k < 65536 ->
  In mode full_scale_values ->
  exists self',
    (set_pressure_threshold (threshold_of_raw k (threshold_factor (i2c_device self))) ;;;
     set_full_scale mode ;;; pressure_threshold) self
    = (Return (threshold_of_raw k (if mode =? 1 then 8 else 16)), self') /\
    ths_p (i2c_device self') = k.
Proof.
  intros Hd Hk Hmode.
  unfold bind at 1. rewrite set_threshold_of_raw by assumption.
  set (s1 := mkLPS28 (wrote _REG_THS_P_L [k mod 256; k / 256] (i2c_device self))
                     (_pressure_scale self)).
  assert (Hd1 : reliable (i2c_device s1)) by exact Hd.
  assert (Hths : ths_p (i2c_device s1) = k) by (now apply ths_p_of_bytes).
  destruct (full_scale_set_then_get mode s1 Hd1 Hmode) as [Hset [_ Hfs]].
  unfold bind. rewrite Hset.
  eexists. rewrite pressure_threshold_reliable by exact Hd.
  rewrite Hfs. cbn [i2c_device]. rewrite ths_p_kept_by_mode, Hths.
  split; [reflexivity|]. cbn [i2c_device].
  now rewrite ths_p_kept_by_mode.
Qed.

Lemma threshold_not_rescaled_by_mode_witness :
  exists self',
    (set_pressure_threshold (10 # 1) ;;;
     set_full_scale FULL_SCALE ;;; pressure_threshold) lps_at_reset
    = (Return (20 # 1)%Q, self') /\
    ths_p (i2c_device self') = 160.
Proof.
  exact (threshold_not_rescaled_by_mode 160 FULL_SCALE lps_at_reset
           eq_refl ltac:(lia) ltac:(simpl; tauto)).
Defined.

(** ** Pressure after a mode change *)

Lemma press_out_kept (b : Z) (d : I2CDevice) :
  press_out (wrote _REG_CTRL_REG2 [b] d) = press_out d.
Proof.
  unfold press_out, wrote. cbn [regs].
  rewrite !reg_byte_store_outside; [reflexivity| | |];
    unfold _REG_PRESS_OUT_XL, _REG_PRESS_OUT_L, _REG_PRESS_OUT_H, _REG_CTRL_REG2;
    simpl; lia.
Qed.

(** X15: the pressure conversion follows the mode set through the
    driver.  After a successful full_scale set the pressure read divides
    the decoded PRESS_OUT value by 4096 for NORMAL and by 2048 for
    FULL_SCALE, whatever the cached scale was before. *)
Theorem pressure_follows_mode_set (mode : Z) (self : LPS28) :
  reliable (i2c_device self) -> In mode full_scale_values ->
  exists self',
    (set_full_scale mode ;;; pressure) self =
      (Return (Qred (inject_Z (_twos_comp (press_out (i2c_device self)) 24)
                     / inject_Z (if mode =? 1 then 2048 else 4096))), self').
Proof.
  intros Hd Hmode.
  destruct (full_scale_set_then_get mode self Hd Hmode) as [Hset _].
  unfold bind. rewrite Hset. eexists.
  rewrite pressure_reliable; cbn [i2c_device _pressure_scale].
  - now rewrite press_out_kept.
  - exact Hd.
  - destruct (mode =? 1); discriminate.
Qed.

Lemma pressure_follows_mode_set_witness :
  exists self',
    (set_full_scale FULL_SCALE ;;; pressure) (mkLPS28 sensor_sample 4096) =
      (Return (Qred (inject_Z (_twos_comp (press_out sensor_sample) 24)
                     / inject_Z (if FULL_SCALE =? 1 then 2048 else 4096))), self').
Proof.
  exact (pressure_follows_mode_set FULL_SCALE (mkLPS28 sensor_sample 4096)
           eq_refl ltac:(simpl; tauto)).
Defined.

(** ** One write per setter *)

Lemma wrote_once_after (a : Z) (bs : list Z) (d d0 : I2CDevice) :
  same_device d d0 -> wrote_once a (length bs) d (wrote a bs d0).
Proof.
  intros [Hr Hw]. split.
  - exists bs. split; [reflexivity|]. unfold wrote. cbn [writes]. now rewrite Hw.
  - intros x Hx. unfold wrote. cbn [regs].
    rewrite store_bytes_outside by assumption. now rewrite Hr.
Qed.

Lemma writes_once_write (a : Z) (bs : list Z) :
  writes_once a (length bs) (i2c_write a bs).
Proof.
  intros d u d'. rewrite i2c_write_eq.
  destruct (hd false (faults d)); [discriminate|]. intros [= _ <-].
  apply wrote_once_after, same_device_advance.
Qed.

Lemma wrote_once_from (a : Z) (n : nat) (d d1 d' : I2CDevice) :
  same_device d d1 -> wrote_once a n d1 d' -> wrote_once a n d d'.
Proof.
  intros [Hr Hw] [[bs [Hlen Hlog]] Hregs]. split.
  - exists bs. split; [assumption|]. now rewrite Hlog, Hw.
  - intros x Hx. now rewrite Hregs, Hr.
Qed.

Lemma writes_once_bind {A B} (a : Z) (n : nat)
    (m : M I2CDevice A) (k : A -> M I2CDevice B) :
  read_only m -> (forall b, writes_once a n (k b)) -> writes_once a n (bind m k).
Proof.
  intros Hm Hk d u d'. unfold bind.
  destruct (m d) as [[b|e] d1] eqn:E; [|discriminate]. intros H.
  exact (wrote_once_from _ _ _ _ _ (Hm _ _ _ E) (Hk b _ _ _ H)).
Qed.

Lemma writes_once_Bits_set (f : Bits) (value : Z) :
  writes_once (bits_address f) (bits_width f) (Bits_set f value).
Proof.
  apply writes_once_bind; [apply read_only_read|]. intros buf.
  pose proof (writes_once_write (bits_address f)
    (le_bytes (Z.lor (Z.land (le_int buf) (Z.lnot (bit_mask f)))
                     (Z.shiftl value (lowest_bit f))) (bits_width f))) as H.
  now rewrite length_le_bytes in H.
Qed.

Lemma writes_once_Bit_set (f : Bit) (value : bool) :
  bit_width f = 1%nat -> bit_byte f = 0%nat ->
  writes_once (bit_address f) 1 (Bit_set f value).
Proof.
  intros Hw Hb d u d'. rewrite Bit_set_eq by assumption.
  destruct (hd false (faults d)); [discriminate|].
  destruct (hd false (faults (advance d))); [discriminate|].
  intros [= _ <-].
  apply (wrote_once_after (bit_address f) [_]).
  exact (same_device_trans _ _ _ (same_device_advance d)
           (same_device_advance (advance d))).
Qed.

Lemma writes_once_Struct_set (f : Struct) (value : Q) :
  writes_once (struct_address f) (calcsize (format f)) (Struct_set f value).
Proof.
  pose proof (writes_once_write (struct_address f) (pack (format f) value)) as H.
  unfold pack in H at 1. now rewrite length_le_bytes in H.
Qed.

Lemma method_writes_once_on_bus {A} (a : Z) (n : nat) (m : M I2CDevice A) :
  writes_once a n m -> method_writes_once a n (on_bus m).
Proof.
  intros Hm self u self'. unfold on_bus.
  destruct (m (i2c_device self)) as [o d1] eqn:E. intros [= -> <-].
  exact (Hm _ _ _ E).
Qed.

Lemma method_writes_once_bind {A B} (a : Z) (n : nat)
    (m : M LPS28 A) (k : A -> M LPS28 B) :
  method_keeps_device m -> (forall b, method_writes_once a n (k b)) ->
  method_writes_once a n (bind m k).
Proof.
  intros Hm Hk self u self'. unfold bind.
  destruct (m self) as [[b|e] s1] eqn:E; [|discriminate]. intros H.
  exact (wrote_once_from _ _ _ _ _ (Hm _ _ _ E) (Hk b _ _ _ H)).
Qed.

Lemma method_writes_once_raise {A} (a : Z) (n : nat) (e : exn) :
  method_writes_once a n (@raise LPS28 A e).
Proof. intros self u self'. discriminate. Qed.

Lemma method_writes_once_returning {A} (a : Z) (n : nat)
    (inj : A -> pyobj) (m : M LPS28 A) :
  method_writes_once a n m ->
  forall self r self',
    returning inj m self = (Return r, self') ->
    wrote_once a n (i2c_device self) (i2c_device self').
Proof.
  intros Hm self r self'. unfold returning, bind.
  destruct (m self) as [[u|e] s1] eqn:E; [|discriminate].
  intros [= _ <-]. exact (Hm _ _ _ E).
Qed.

Ltac writes_once_step :=
  match goal with
  | |- method_writes_once _ _ (if ?b then _ else _) => destruct b
  | |- method_writes_once _ _ (raise _) => apply method_writes_once_raise
  | |- method_writes_once _ _ (bind _ _) =>
      apply method_writes_once_bind; [|intros ?]
  | |- method_writes_once _ _ (on_bus (Bits_set ?f _)) =>
      apply method_writes_once_on_bus, (writes_once_Bits_set f)
  | |- method_writes_once _ _ (on_bus (Bit_set ?f _)) =>
      apply method_writes_once_on_bus, (writes_once_Bit_set f); reflexivity
  | |- method_writes_once _ _ (on_bus (Struct_set ?f _)) =>
      apply method_writes_once_on_bus, (writes_once_Struct_set f)
  | |- method_keeps_device (set_pressure_scale _) =>
      apply method_keeps_device_set_scale
  | |- method_keeps_device _ => apply method_read_only_keeps_device
  | _ => read_only_step
  end.

(** X16: a setter call that returns has done exactly one write, to its
    own register (CTRL_REG1 for data rate and resolution, CTRL_REG2 for
    full scale, INTERRUPT_CFG for the enables, THS_P_L and THS_P_H for
    the threshold), and has left every other register as it was,
    whatever the transport did in between. *)
Theorem setter_writes_its_register_once
    (c : call) (a : Z) (n : nat) (self self' : LPS28) (r : pyobj) :
  call_register c = Some (a, n) ->
  perform c self = (Return r, self') ->
  (exists bs, length bs = n /\
     writes (i2c_device self') = writes (i2c_device self) ++ [(a, bs)]) /\
  (forall x, x < a \/ a + Z.of_nat n <= x ->
     regs (i2c_device self') !! x = regs (i2c_device self) !! x).
Proof.
  intros Hc H.
  destruct c; try discriminate; injection Hc as <- <-;
    unfold perform in H;
    refine (method_writes_once_returning _ _ _ _ _ _ _ _ H);
    unfold_methods; repeat writes_once_step.
Qed.

Lemma setter_writes_its_register_once_witness :
  (exists bs, length bs = 2%nat /\
     writes (i2c_device (snd (perform (SetPressureThreshold 10) lps_at_reset)))
     = writes (i2c_device lps_at_reset) ++ [(_REG_THS_P_L, bs)]) /\
  (forall x, x < _REG_THS_P_L \/ _REG_THS_P_L + Z.of_nat 2 <= x ->
     regs (i2c_device (snd (perform (SetPressureThreshold 10) lps_at_reset))) !! x
     = regs (i2c_device lps_at_reset) !! x).
Proof.
  apply (setter_writes_its_register_once (SetPressureThreshold 10) _REG_THS_P_L 2
           lps_at_reset _ (PBool false)); reflexivity.
Defined.

(** ** What a call may raise *)






Lemma raises_only_get_state {S} (P : exn -> Prop) : raises_only P (@get_state S).
Proof. intros s e s'. discriminate. Qed.






















(** ** The threshold conversion in both directions *)

Lemma whole_threshold_raw (h f : Z) :
  Qred (inject_Z h * inject_Z f) = inject_Z (h * f).
Proof. rewrite <- inject_Z_mult. apply Qred_inject_Z. Qed.

Lemma whole_threshold_back (h f : Z) :
  f <> 0 -> Qred (inject_Z (h * f) / inject_Z f) = inject_Z h.
Proof.
  intros Hf. transitivity (Qred (inject_Z h)); [|apply Qred_inject_Z].
  apply Qred_complete. rewrite inject_Z_mult.
  apply Qdiv_mult_l. unfold Qeq. simpl. lia.
Qed.

Lemma whole_threshold_round_trip (h : Z) (self : LPS28) :
  reliable (i2c_device self) ->
  0 <= h * threshold_factor (i2c_device self) < 65536 ->
  exists self',
    set_pressure_threshold (inject_Z h) self = (Return tt, self') /\
    reliable (i2c_device self') /\
    writes (i2c_device self') =
      writes (i2c_device self)
      ++ [(_REG_THS_P_L, [(h * threshold_factor (i2c_device self)) mod 256;
                          (h * threshold_factor (i2c_device self)) / 256])] /\
    ths_p (i2c_device self') = h * threshold_factor (i2c_device self) /\
    pressure_threshold self' = (Return (inject_Z h), self').
Proof.
  intros Hd Hh.
  pose proof (set_pressure_threshold_reliable (inject_Z h) self Hd) as Hset.
  cbv zeta in Hset. fold (threshold_factor (i2c_device self)) in Hset.
  rewrite whole_threshold_raw, pack_H_in_range in Hset by assumption.
  eexists. split; [exact Hset|]. cbn [i2c_device].
  split; [exact Hd|]. split; [reflexivity|].
  split; [now apply ths_p_of_bytes|].
  rewrite pressure_threshold_reliable by exact Hd. cbn [i2c_device].
  rewrite fs_mode_kept_by_threshold by reflexivity.
  rewrite ths_p_of_bytes by assumption.
  fold (threshold_factor (i2c_device self)).
  now rewrite whole_threshold_back by apply threshold_factor_nonzero.
Qed.

Lemma mode_set_then_threshold_read (mode : Z) (self : LPS28) :
  reliable (i2c_device self) -> In mode full_scale_values ->
  exists self',
    (set_full_scale mode ;;; pressure_threshold) self =
      (Return (Qred (inject_Z (ths_p (i2c_device self))
                     / inject_Z (if mode =? 1 then 8 else 16))), self').
Proof.
  intros Hd Hin.
  destruct (full_scale_set_then_get mode self Hd Hin) as [Hset [_ Hfs]].
  eexists. unfold bind. rewrite Hset.
  rewrite pressure_threshold_reliable by exact Hd.
  rewrite Hfs. cbn [i2c_device]. rewrite ths_p_kept by tauto. reflexivity.
Qed.

(** C5: the threshold conversion factor follows the full-scale mode the
    device is in when pressure_threshold is accessed, for the getter and
    for the setter.  After setting full_scale to FULL_SCALE the getter
    divides the 16-bit THS_P value by 8, after setting it to NORMAL by
    16, and in general by the factor of the mode the device holds.  The
    setter multiplies any value by that factor and writes the result to
    THS_P in one write; a whole number of hPa that fits is stored as
    that number times the factor and reads back as itself, also right
    after a mode change.  So in normal mode setting pressure_threshold
    to 10.0 writes the raw value 160, which reads back as 10.0. *)
Theorem threshold_divisor_follows_full_scale (self : LPS28) :
  reliable (i2c_device self) ->
  (exists self',
     (set_full_scale FULL_SCALE ;;; pressure_threshold) self =
       (Return (Qred (inject_Z (ths_p (i2c_device self)) / 8)), self')) /\
  (exists self',
     (set_full_scale NORMAL ;;; pressure_threshold) self =
       (Return (Qred (inject_Z (ths_p (i2c_device self)) / 16)), self')) /\
  pressure_threshold self =
    (Return (Qred (inject_Z (ths_p (i2c_device self))
                   / inject_Z (threshold_factor (i2c_device self)))), self) /\
  (forall value : Q,
     set_pressure_threshold value self =
       (Return tt,
        mkLPS28 (wrote _REG_THS_P_L
                       (pack fmt_H
                          (Qred (value
                                 * inject_Z (threshold_factor (i2c_device self)))))
                       (i2c_device self))
                (_pressure_scale self))) /\
  (forall h : Z,
     0 <= h * threshold_factor (i2c_device self) < 65536 ->
     exists self',
       set_pressure_threshold (inject_Z h) self = (Return tt, self') /\
       ths_p (i2c_device self') = h * threshold_factor (i2c_device self) /\
       pressure_threshold self' = (Return (inject_Z h), self')) /\
  (forall mode h : Z,
     In mode full_scale_values ->
     0 <= h * (if mode =? 1 then 8 else 16) < 65536 ->
     exists self',
       (set_full_scale mode ;;; set_pressure_threshold (inject_Z h) ;;;
        pressure_threshold) self = (Return (inject_Z h), self') /\
       ths_p (i2c_device self') = h * (if mode =? 1 then 8 else 16)) /\
  (fs_mode (i2c_device self) = false ->
   pressure_threshold self =
     (Return (Qred (inject_Z (ths_p (i2c_device self)) / 16)), self) /\
   exists self',
     set_pressure_threshold 10 self = (Return tt, self') /\
     writes (i2c_device self') =
       writes (i2c_device self) ++ [(_REG_THS_P_L, [160; 0])] /\
     ths_p (i2c_device self') = 160 /\
     pressure_threshold self' = (Return 10%Q, self')).
Proof.
  intros Hd.
  split; [apply (mode_set_then_threshold_read FULL_SCALE); [exact Hd|simpl; tauto]|].
  split; [apply (mode_set_then_threshold_read NORMAL); [exact Hd|simpl; tauto]|].
  split; [now apply pressure_threshold_reliable|].
  split; [intros value; now apply set_pressure_threshold_reliable|].
  split.
  { intros h Hh.
    destruct (whole_threshold_round_trip h self Hd Hh)
      as [s [Hset [_ [_ [Hraw Hget]]]]].
    exists s. auto. }
  split.
  { intros mode h Hin Hh.
    destruct (full_scale_set_then_get mode self Hd Hin) as [Hset [_ Hfs]].
    set (s1 := mkLPS28 _ _) in Hset, Hfs.
    assert (Hd1 : reliable (i2c_device s1)) by exact Hd.
    assert (Hf1 : threshold_factor (i2c_device s1) = if mode =? 1 then 8 else 16)
      by (unfold threshold_factor; rewrite Hfs; reflexivity).
    destruct (whole_threshold_round_trip h s1 Hd1)
      as [s2 [Hset2 [_ [_ [Hraw Hget]]]]]; [now rewrite Hf1|].
    exists s2. unfold bind. rewrite Hset, Hset2, Hget.
    split; [reflexivity|]. now rewrite Hraw, Hf1. }
  intros Hnormal. split.
  - rewrite pressure_threshold_reliable by assumption. now rewrite Hnormal.
  - pose proof (set_pressure_threshold_reliable 10 self Hd) as Hset.
    cbv zeta in Hset. rewrite Hnormal in Hset.
    change (pack fmt_H (Qred (10 * inject_Z 16))) with [160; 0] in Hset.
    eexists. split; [exact Hset|]. cbn [i2c_device].
    split; [reflexivity|]. split; [apply ths_p_written|].
    rewrite pressure_threshold_reliable by exact Hd.
    cbn [i2c_device]. rewrite fs_mode_kept_by_threshold by reflexivity.
    rewrite Hnormal, ths_p_written. reflexivity.
Qed.

Lemma threshold_divisor_follows_full_scale_witness :
  (exists self',
     (set_full_scale FULL_SCALE ;;; pressure_threshold) lps_at_reset =
       (Return (Qred (inject_Z (ths_p (i2c_device lps_at_reset)) / 8)), self')) /\
  (exists self',
     (set_full_scale FULL_SCALE ;;; set_pressure_threshold (inject_Z 10) ;;;
      pressure_threshold) lps_at_reset = (Return (inject_Z 10), self') /\
     ths_p (i2c_device self') = 10 * (if FULL_SCALE =? 1 then 8 else 16)) /\
  exists self',
    set_pressure_threshold 10 lps_at_reset = (Return tt, self') /\
    writes (i2c_device self') =
      writes (i2c_device lps_at_reset) ++ [(_REG_THS_P_L, [160; 0])] /\
    ths_p (i2c_device self') = 160 /\
    pressure_threshold self' = (Return 10%Q, self').
Proof.
  pose proof (threshold_divisor_follows_full_scale lps_at_reset eq_refl)
    as [Hfull [_ [_ [_ [_ [Hmode Hten]]]]]].
  split; [exact Hfull|]. split.
  - apply (Hmode FULL_SCALE 10); [simpl; tauto|simpl; lia].
  - exact (proj2 (Hten eq_refl)).
Defined.
